(** * Prompt assembly of prompt-lib: a shallow embedding and its properties

    The development embeds the two source files

      - [src/prompt_lib/prompts/utils.py]  (module [PromptLib] below)
      - [src/prompts/utils.py]             (module [Prompts] below)

    Python values are modelled as follows.

      - [str] is [string]: a sequence of characters whose code points are
        below 256; [+] on [str] is [String.append], written [+:+].
      - [int] is [Z]; list lengths and list positions are [nat].
      - a [list] is a [list]; [l[i]] is the lookup [l !! i], and an index
        that is out of range raises [IndexError].
      - a [dict] with string keys is a [gmap string _]; a [set] of positions
        is a [gset nat].
      - an exception is a value of [PyErr], carried by the result type [Res].
*)

From Stdlib Require Import ZArith Ascii String Lia.
From stdpp Require Import gmap strings list fin_maps.

(** ** Results of fallible code *)

(** The exceptions that the embedded code can raise. *)
Inductive PyErr : Type :=
| ValueError (msg : string)
| IndexError
| TypeError
| KeyError (key : string)
| FileNotFoundError (path : string)
| JSONDecodeError.

(** A call returns a value, raises, or (only where the source has a [while]
    loop whose exit depends on the random generator) exhausts the fuel given
    to that loop. *)
Inductive Res (A : Type) : Type :=
| Ok (a : A)
| Raise (e : PyErr)
| OutOfFuel.

Arguments Ok {A} a.
Arguments Raise {A} e.
Arguments OutOfFuel {A}.

#[global] Instance Res_ret : MRet Res := fun A a => Ok a.

#[global] Instance Res_bind : MBind Res := fun A B f m =>
  match m with
  | Ok a => f a
  | Raise e => Raise e
  | OutOfFuel => OutOfFuel
  end.

#[global] Instance Res_fmap : FMap Res := fun A B f m =>
  match m with
  | Ok a => Ok (f a)
  | Raise e => Raise e
  | OutOfFuel => OutOfFuel
  end.

(** [terminates m]: the call did not run out of fuel. *)
Definition terminates {A} (m : Res A) : Prop :=
  match m with OutOfFuel => False | _ => True end.

(** ** Strings *)

Module Str.

(** [c.isspace()] for a character of code point below 256: the white space
    of Python's [str] type in that range. *)
Definition isspace (c : ascii) : bool :=
  let n := nat_of_ascii c in
  ((9 <=? n) && (n <=? 13)) || ((28 <=? n) && (n <=? 32))
  || (n =? 133) || (n =? 160).

Definition is_empty (s : string) : bool :=
  match s with EmptyString => true | String _ _ => false end.

(** [s.lstrip()] *)
Fixpoint lstrip (s : string) : string :=
  match s with
  | EmptyString => EmptyString
  | String c s' => if isspace c then lstrip s' else s
  end.

(** [s.rstrip()] *)
Fixpoint rstrip (s : string) : string :=
  match s with
  | EmptyString => EmptyString
  | String c s' =>
      let r := rstrip s' in
      if isspace c && is_empty r then EmptyString else String c r
  end.

(** [s.strip()]: white space removed at both ends. *)
Definition strip (s : string) : string := rstrip (lstrip s).

(** [sub in s] *)
Fixpoint contains (sub s : string) : bool :=
  String.prefix sub s
  || match s with
     | EmptyString => false
     | String _ s' => contains sub s'
     end.

(** [s.endswith(suffix)]: [suffix] is [s] or the end of its tail. *)
Fixpoint endswith (s suffix : string) : bool :=
  String.eqb s suffix
  || match s with
     | EmptyString => false
     | String _ s' => endswith s' suffix
     end.

(** [s.split(sep)[0]] for a one-character separator: the part of [s] before
    the first [sep], all of [s] when there is none. *)
Fixpoint split_first (sep : ascii) (s : string) : string :=
  match s with
  | EmptyString => EmptyString
  | String c s' =>
      if Ascii.eqb c sep then EmptyString else String c (split_first sep s')
  end.

(** [s.replace(old, new)] for a non-empty [old]: the occurrences of [old]
    are found left to right and do not overlap.  [skip] counts the
    characters of the current occurrence that are still to be dropped. *)
Fixpoint replace_from (old new : string) (skip : nat) (s : string) : string :=
  match s with
  | EmptyString => EmptyString
  | String c s' =>
      match skip with
      | S k => replace_from old new k s'
      | O =>
          if String.prefix old s
          then new +:+ replace_from old new (String.length old - 1) s'
          else String c (replace_from old new 0 s')
      end
  end.

Definition replace (old new s : string) : string := replace_from old new 0 s.

(** The two strings of [x.replace("\\n", "\n")]: a backslash followed by
    the letter n, and the line feed. *)
Definition backslash : ascii := ascii_of_nat 92.
Definition letter_n : ascii := ascii_of_nat 110.
Definition LF : ascii := ascii_of_nat 10.
Definition escaped_newline : string := String backslash (String letter_n EmptyString).
Definition newline : string := String LF EmptyString.

(** [concat l]: the strings of [l], appended in order. *)
Fixpoint concat (l : list string) : string :=
  match l with
  | [] => EmptyString
  | s :: l' => s +:+ concat l'
  end.

End Str.

(** ** Data model *)

(** [@dataclass class PromptConfig], declared with the same five fields and
    defaults in both source files. *)
Record PromptConfig : Type := mkPromptConfig {
  question_prefix : string;
  answer_prefix : string;
  final_answer_prefix : string;
  intra_example_sep : string;
  inter_example_sep : string
}.

(** [PromptConfig()]: every field at its default. *)
Definition PromptConfig_default : PromptConfig :=
  {| question_prefix := "Q: ";
     answer_prefix := "A: ";
     final_answer_prefix := "The answer is ";
     intra_example_sep := Str.newline;
     inter_example_sep := Str.newline +:+ Str.newline |}.

(** Modelled from the spec: the class [Example] of [prompts/example.py], which
    is imported by both source files and absent from them.  The spec gives it
    a question, an answer, and an optional thought. *)
Record Example : Type := mkExample {
  question : string;
  answer : string;
  thought : option string
}.

(** Modelled from the spec: the class [PromptStr] of [prompts/example.py], a
    wrapper of a literal prompt read through its attribute [prompt_str]; and
    the type [Union[List[Example], PromptStr]] of the first argument of
    [make_prompt]. *)
Inductive PromptExamples : Type :=
| PromptStr (prompt_str : string)
| ExampleList (examples : list Example).

(** ** The random generator of Python's [random] module

    [random.Random(seed)] is library code, not code of this repository.  Its
    generator is taken as an interface: a type of generator states, the state
    that [Random(seed)] starts from, and [_randbelow(n)], which returns a
    number and moves the generator to its next state. *)
Record Generator : Type := mkGenerator {
  gen_state : Type;
  Random : Z -> gen_state;
  randbelow : gen_state -> nat -> nat * gen_state
}.

(** The contract of [_randbelow(n)] for a positive [n]: the number returned
    is in [range(n)]. *)
Definition lawful (rng : Generator) : Prop :=
  forall (g : gen_state rng) (n : nat), 0 < n -> (randbelow rng g n).1 < n.

(** The method [Random.sample] of CPython's [Lib/random.py], which
    [make_prompt] and [format_prompt] call.  It is library code; it is
    transcribed here so that what is sampled is computed by a definition and
    not assumed.  The only floating-point step, [_ceil(_log(k * 3, 4))],
    chooses between the two loops of the method and is computed exactly. *)
Module PyRandom.

(** [_ceil(_log(x, 4))], computed exactly: the least [m] with [x <= 4 ^ m]. *)
Definition ceil_log4 (x : nat) : nat :=
  Z.to_nat ((Z.log2_up (Z.of_nat x) + 1) / 2).

(** [setsize] of [Random.sample]:
<<
    setsize = 21
    if k > 5:
        setsize += 4 ** _ceil(_log(k * 3, 4))
>> *)
Definition setsize (k : nat) : nat :=
  if decide (5 < k) then 21 + 4 ^ ceil_log4 (k * 3) else 21.

Section Sample.
Context (rng : Generator) {A : Type}.

(** The first loop of [Random.sample], taken when [n <= setsize]:
<<
  pool = list(population)
  for i in range(k):
      j = randbelow(n - i)
      result[i] = pool[j]
      pool[j] = pool[n - i - 1]
>>
    [todo] is the number of iterations left; [result[i] = x] for
    [i = 0, 1, ...] fills [result] from the left, which is [result ++ [x]]. *)
Fixpoint sample_pool (todo i n : nat) (g : gen_state rng)
    (pool result : list A) : Res (list A) :=
  match todo with
  | O => Ok result
  | S todo' =>
      let '(j, g') := randbelow rng g (n - i) in
      match pool !! j, pool !! (n - i - 1) with
      | Some x, Some y =>
          sample_pool todo' (S i) n g' (<[j:=y]> pool) (result ++ [x])
      | _, _ => Raise IndexError
      end
  end.

(** The rejection loop of the second branch:
<<
      j = randbelow(n)
      while j in selected:
          j = randbelow(n)
>>
    [fuel] bounds the number of draws. *)
Fixpoint draw_fresh (fuel n : nat) (selected : gset nat)
    (g : gen_state rng) : Res (nat * gen_state rng) :=
  match fuel with
  | O => OutOfFuel
  | S fuel' =>
      let '(j, g') := randbelow rng g n in
      if decide (j ∈ selected) then draw_fresh fuel' n selected g'
      else Ok (j, g')
  end.

(** The second loop of [Random.sample], taken when [n > setsize]:
<<
  selected = set()
  for i in range(k):
      j = randbelow(n)
      while j in selected:
          j = randbelow(n)
      selected_add(j)
      result[i] = population[j]
>> *)
Fixpoint sample_set (fuel todo n : nat) (g : gen_state rng)
    (selected : gset nat) (population result : list A) : Res (list A) :=
  match todo with
  | O => Ok result
  | S todo' =>
      '(j, g') ← draw_fresh fuel n selected g;
      match population !! j with
      | Some x =>
          sample_set fuel todo' n g' ({[j]} ∪ selected) population
            (result ++ [x])
      | None => Raise IndexError
      end
  end.

(** [Random.sample(population, k)] on the generator state [g]:
<<
  n = len(population)
  if not 0 <= k <= n:
      raise ValueError("Sample larger than population or is negative")
  result = [None] * k
  ...
  return result
>> *)
Definition sample (fuel : nat) (g : gen_state rng) (population : list A)
    (k : Z) : Res (list A) :=
  let n := length population in
  if decide (0 ≤ k ≤ Z.of_nat n)%Z then
    let k := Z.to_nat k in
    if decide (n ≤ setsize k)
    then sample_pool k 0 n g population []
    else sample_set fuel k n g ∅ population []
  else Raise (ValueError "Sample larger than population or is negative").

End Sample.

End PyRandom.

(** ** Formatting, shared by [make_prompt] and [format_prompt]

    The body of the loop [for example in examples:], which is the same text in
    both source files.  [example.thought] is read only under
    [if is_cot_prompt:]; appending an absent thought ([None]) to a [str]
    raises [TypeError]. *)
Definition format_example (prompt_config : PromptConfig) (is_cot_prompt : bool)
    (prompt_str : string) (example : Example) : Res string :=
  let prompt_str :=
    prompt_str +:+ (question_prefix prompt_config +:+ question example
                    +:+ intra_example_sep prompt_config) in
  prompt_str ←
    (if is_cot_prompt then
       match thought example with
       | Some th =>
           let prompt_str :=
             prompt_str +:+ (answer_prefix prompt_config +:+ th +:+ " ") in
           Ok (prompt_str +:+ (final_answer_prefix prompt_config
                               +:+ answer example
                               +:+ intra_example_sep prompt_config))
       | None => Raise TypeError
       end
     else
       Ok (prompt_str +:+ (answer_prefix prompt_config
                           +:+ final_answer_prefix prompt_config
                           +:+ answer example
                           +:+ intra_example_sep prompt_config)));
  Ok (prompt_str +:+ inter_example_sep prompt_config).

(** [for example in examples: ...], from the current value of [prompt_str]. *)
Fixpoint format_loop (prompt_config : PromptConfig) (is_cot_prompt : bool)
    (examples : list Example) (prompt_str : string) : Res string :=
  match examples with
  | [] => Ok prompt_str
  | example :: rest =>
      prompt_str ← format_example prompt_config is_cot_prompt prompt_str example;
      format_loop prompt_config is_cot_prompt rest prompt_str
  end.

(** Lines 139-141 of [make_prompt] (82-84 of [format_prompt]): the count
    [-1] stands for the size of the pool, then the examples are sampled. *)
Definition select_examples (rng : Generator) (fuel : nat)
    (prompt_examples : list Example) (num_prompt_examples seed : Z)
    : Res (list Example) :=
  let num_prompt_examples :=
    if decide (num_prompt_examples = (-1)%Z)
    then Z.of_nat (length prompt_examples)
    else num_prompt_examples in
  PyRandom.sample rng fuel (Random rng seed) prompt_examples num_prompt_examples.

(** The command-line arguments read by [PromptConfig.from_args]. *)
Record Args : Type := mkArgs {
  args_question_prefix : string;
  args_answer_prefix : string;
  args_final_answer_prefix : string;
  args_intra_example_sep : string;
  args_inter_example_sep : string
}.

(** [PromptConfig.from_args], the same in both source files. *)
Definition from_args (args : Args) : PromptConfig :=
  {| question_prefix :=
       Str.replace Str.escaped_newline Str.newline (args_question_prefix args);
     answer_prefix :=
       Str.replace Str.escaped_newline Str.newline (args_answer_prefix args);
     final_answer_prefix :=
       Str.replace Str.escaped_newline Str.newline (args_final_answer_prefix args);
     intra_example_sep :=
       Str.replace Str.escaped_newline Str.newline (args_intra_example_sep args);
     inter_example_sep :=
       Str.replace Str.escaped_newline Str.newline (args_inter_example_sep args) |}.

(** ** The task file and the registry

    [make_task_file_from_config] reads a file, parses its lines with
    [json.loads], looks the task up in [task_id_to_prompt] and builds a pandas
    table.  The file system, the JSON parser and the registry (the module
    [prompts/task_id_to_prompt.py], absent from the sources) are the
    environment of the call. *)

(** One record of a task file.  The docstring of [TaskConfig] asks for a
    "jsonl file with two columns: input and target"; the model covers the
    lines that parse to such a record with string values. *)
Record TaskRow : Type := mkTaskRow {
  input : string;
  target : string
}.

Record Env : Type := mkEnv {
  (** [open(path, "r")]: the lines of the file, or no file at that path *)
  files : gmap string (list string);
  (** [json.loads(line)]: the record, or [None] where the library raises *)
  json_loads : string -> option TaskRow;
  (** the dictionary [task_id_to_prompt] *)
  task_id_to_prompt : gmap string PromptExamples
}.

(** The table that is returned: the labels of its columns, and its rows in
    order, one cell per column. *)
Record Table : Type := mkTable {
  columns : list string;
  rows : list (list string)
}.

(** [open(task_file_path, "r")] *)
Definition open_file (env : Env) (path : string) : Res (list string) :=
  match files env !! path with
  | Some lines => Ok lines
  | None => Raise (FileNotFoundError path)
  end.

(** [for line in f: rows.append(json.loads(line))] *)
Fixpoint parse_lines (env : Env) (lines : list string) : Res (list TaskRow) :=
  match lines with
  | [] => Ok []
  | line :: rest =>
      match json_loads env line with
      | Some row => r ← parse_lines env rest; Ok (row :: r)
      | None => Raise JSONDecodeError
      end
  end.

(** [task_id_to_prompt[task_id]] *)
Definition registry_lookup (env : Env) (task_id : string) : Res PromptExamples :=
  match task_id_to_prompt env !! task_id with
  | Some p => Ok p
  | None => Raise (KeyError task_id)
  end.

(** [f"data/tasks/{task_id.split('_')[0]}.jsonl"] *)
Definition task_file_path (task_id : string) : string :=
  "data/tasks/" +:+ Str.split_first "_"%char task_id +:+ ".jsonl".

(** The last summand of the column [question], the same expression in both
    source files:
<<
    task_config.prompt_config.answer_prefix.strip()
    if is_non_code_model
    else task_config.prompt_config.answer_prefix
>>
    where [is_non_code_model = "code" not in task_config.model_name]. *)
Definition query_answer_prefix (prompt_config : PromptConfig)
    (model_name : string) : string :=
  let is_non_code_model := negb (Str.contains "code" model_name) in
  if is_non_code_model then Str.strip (answer_prefix prompt_config)
  else answer_prefix prompt_config.

(** The columns [question] and [answer] computed from the rows of the file and
    selected by [task_df[["question", "answer"]]].  A table built from no row
    has no column, so that [task_df["input"]] raises [KeyError]. *)
Definition build_table (prompt_str : string) (prompt_config : PromptConfig)
    (model_name : string) (task_rows : list TaskRow) : Res Table :=
  match task_rows with
  | [] => Raise (KeyError "input")
  | _ =>
      Ok {| columns := ["question"; "answer"];
            rows :=
              (fun row =>
                 [ prompt_str +:+ question_prefix prompt_config +:+ input row
                   +:+ intra_example_sep prompt_config
                   +:+ query_answer_prefix prompt_config model_name;
                   target row ]) <$> task_rows |}
  end.

(** ** [src/prompt_lib/prompts/utils.py] *)
Module PromptLib.

(** [PromptConfig.from_dict]: the constructor of [PromptConfig] applied to
    the entries of [config_dict] as keyword arguments.  A key that is not a
    field makes the constructor raise [TypeError]; a field that is not a key
    takes its default. *)
Definition field_names : list string :=
  ["question_prefix"; "answer_prefix"; "final_answer_prefix";
   "intra_example_sep"; "inter_example_sep"].

Definition from_dict (config_dict : gmap string string) : Res PromptConfig :=
  if decide (dom config_dict ⊆ list_to_set field_names) then
    let d := PromptConfig_default in
    Ok {| question_prefix :=
            default (question_prefix d) (config_dict !! "question_prefix");
          answer_prefix :=
            default (answer_prefix d) (config_dict !! "answer_prefix");
          final_answer_prefix :=
            default (final_answer_prefix d) (config_dict !! "final_answer_prefix");
          intra_example_sep :=
            default (intra_example_sep d) (config_dict !! "intra_example_sep");
          inter_example_sep :=
            default (inter_example_sep d) (config_dict !! "inter_example_sep") |}
  else Raise TypeError.

(** [obj.<name>] for a field name of [PromptConfig]. *)
Definition get_field (name : string) (c : PromptConfig) : option string :=
  if decide (name = "question_prefix") then Some (question_prefix c)
  else if decide (name = "answer_prefix") then Some (answer_prefix c)
  else if decide (name = "final_answer_prefix") then Some (final_answer_prefix c)
  else if decide (name = "intra_example_sep") then Some (intra_example_sep c)
  else if decide (name = "inter_example_sep") then Some (inter_example_sep c)
  else None.

(** [@dataclass class TaskConfig].  The fields [temperature] (a float) and
    [eval_function] (a function looked up by name) are carried along by the
    source and read by no function embedded here; they are left out. *)
Record TaskConfig : Type := mkTaskConfig {
  task_id : string;
  tag : string;
  num_prompt_examples : Z;
  max_tokens : Z;
  seed : Z;
  num_questions_per_thread : Z;
  is_cot_task : bool;
  model_name : string;
  cached_timestamp : string;
  max_requests_per_min : Z;
  prompt_config : PromptConfig
}.

(** [make_prompt], lines 119-165. *)
Definition make_prompt (rng : Generator) (fuel : nat)
    (prompt_examples : PromptExamples) (prompt_config : PromptConfig)
    (num_prompt_examples seed : Z) (is_cot_prompt : bool) : Res string :=
  match prompt_examples with
  | PromptStr prompt_str => Ok prompt_str
  | ExampleList prompt_examples =>
      examples ← select_examples rng fuel prompt_examples num_prompt_examples seed;
      format_loop prompt_config is_cot_prompt examples ""
  end.

(** [make_task_file_from_config], lines 168-218. *)
Definition make_task_file_from_config (rng : Generator) (env : Env)
    (fuel : nat) (task_config : TaskConfig) : Res Table :=
  lines ← open_file env (task_file_path (task_id task_config));
  task_rows ← parse_lines env lines;
  entry ← registry_lookup env (task_id task_config);
  prompt_str ←
    match entry with
    | PromptStr prompt_str => Ok prompt_str
    | ExampleList _ =>
        make_prompt rng fuel entry (prompt_config task_config)
          (num_prompt_examples task_config) (seed task_config)
          (is_cot_task task_config)
    end;
  build_table prompt_str (prompt_config task_config) (model_name task_config)
    task_rows.

End PromptLib.

(** ** [src/prompts/utils.py] *)
Module Prompts.

(** [@dataclass class TaskConfig]; [temperature] is left out as above. *)
Record TaskConfig : Type := mkTaskConfig {
  task_id : string;
  tag : string;
  num_examples : Z;
  max_tokens : Z;
  timeout : Z;
  seed : Z;
  num_questions_per_thread : Z;
  is_cot_task : bool;
  model_name : string;
  cached_timestamp : string;
  max_requests_per_min : Z;
  prompt_config : PromptConfig
}.

(** [format_prompt], lines 62-110. *)
Definition format_prompt (rng : Generator) (fuel : nat)
    (prompt_examples : PromptExamples) (prompt_config : PromptConfig)
    (num_examples seed : Z) (is_cot_prompt : bool) : Res string :=
  match prompt_examples with
  | PromptStr prompt_str => Ok prompt_str
  | ExampleList prompt_examples =>
      examples ← select_examples rng fuel prompt_examples num_examples seed;
      format_loop prompt_config is_cot_prompt examples ""
  end.

(** [make_task_file_from_config], lines 113-158. *)
Definition make_task_file_from_config (rng : Generator) (env : Env)
    (fuel : nat) (task_config : TaskConfig) : Res Table :=
  lines ← open_file env (task_file_path (task_id task_config));
  task_rows ← parse_lines env lines;
  entry ← registry_lookup env (task_id task_config);
  prompt_str ←
    match entry with
    | PromptStr prompt_str => Ok prompt_str
    | ExampleList _ =>
        format_prompt rng fuel entry (prompt_config task_config)
          (num_examples task_config) (seed task_config)
          (is_cot_task task_config)
    end;
  build_table prompt_str (prompt_config task_config) (model_name task_config)
    task_rows.

End Prompts.

(** ** The text of the specification, for comparison with the code *)
Module Spec.

(** What the specification appends for one selected example:
    [question_prefix + question + intra_example_sep], then the answer line in
    its chain-of-thought or plain form, then [inter_example_sep]. *)
Definition example_block (c : PromptConfig) (cot : bool) (e : Example) : string :=
  (question_prefix c +:+ question e +:+ intra_example_sep c)
  +:+ (if cot
       then answer_prefix c +:+ default "" (thought e) +:+ " "
            +:+ final_answer_prefix c +:+ answer e +:+ intra_example_sep c
       else answer_prefix c +:+ final_answer_prefix c +:+ answer e
            +:+ intra_example_sep c)
  +:+ inter_example_sep c.

(** The blocks of the selected examples, in the sampled order. *)
Definition assemble (c : PromptConfig) (cot : bool) (selected : list Example)
    : string :=
  Str.concat (example_block c cot <$> selected).

(** The spec's trimming of the answer prefix: on the right only. *)
Definition trimmed_or_raw_answer_prefix (c : PromptConfig) (model_name : string)
    : string :=
  if Str.contains "code" model_name then answer_prefix c
  else Str.rstrip (answer_prefix c).

End Spec.

(** ** A small generator, used to run the definitions on concrete inputs

    The state is a counter; [randbelow(n)] returns the counter modulo [n] and
    advances it. *)
Definition counter_rng : Generator :=
  {| gen_state := nat;
     Random := fun seed => Z.to_nat (Z.abs seed);
     randbelow := fun g n => (g `mod` n, S g) |}.

(** Every selected example carries a thought when the chain-of-thought form
    is asked for. *)
Definition thoughts_present (cot : bool) (selected : list Example) : Prop :=
  cot = true -> Forall (fun e => is_Some (thought e)) selected.

(** [selected] are the elements of [population] at the positions [idxs], in
    that order. *)
Definition at_positions {A} (population : list A) (idxs : list nat)
    (selected : list A) : Prop :=
  Forall2 (fun i x => population !! i = Some x) idxs selected.

(** The message of the [ValueError] of [Random.sample]. *)
Definition sample_error : PyErr :=
  ValueError "Sample larger than population or is negative".

(** [x.replace("\\n", "\n")], the conversion that [from_args] applies to each
    argument. *)
Definition unescape (s : string) : string :=
  Str.replace Str.escaped_newline Str.newline s.

(** The characters [c], [d] are a backslash and the letter n. *)
Definition is_esc (c d : ascii) : bool :=
  Ascii.eqb c Str.backslash && Ascii.eqb d Str.letter_n.

(** [s] begins with the letter n. *)
Definition starts_n (s : string) : bool :=
  match s with
  | EmptyString => false
  | String c _ => Ascii.eqb c Str.letter_n
  end.

(** The two task configurations agree on the fields that
    [make_task_file_from_config] reads. *)
Definition same_task (tc : PromptLib.TaskConfig) (tc' : Prompts.TaskConfig)
    : Prop :=
  Prompts.task_id tc' = PromptLib.task_id tc
  /\ Prompts.num_examples tc' = PromptLib.num_prompt_examples tc
  /\ Prompts.seed tc' = PromptLib.seed tc
  /\ Prompts.is_cot_task tc' = PromptLib.is_cot_task tc
  /\ Prompts.model_name tc' = PromptLib.model_name tc
  /\ Prompts.prompt_config tc' = PromptLib.prompt_config tc.

(** [s[-1].isspace()] for a non-empty [s]: the last character of [s] is white
    space. *)
Fixpoint ends_with_space (s : string) : bool :=
  match s with
  | EmptyString => false
  | String c s' =>
      match s' with
      | EmptyString => Str.isspace c
      | String _ _ => ends_with_space s'
      end
  end.

(** The example [e] with its thought removed. *)
Definition forget_thought (e : Example) : Example :=
  {| question := question e; answer := answer e; thought := None |}.

(** [v.__dict__] for a [PromptConfig] [v], as [TaskConfig.to_dict] stores it
    (line 73) and [TaskConfig.from_config_dict] hands it back to
    [PromptConfig.from_dict] (line 99). *)
Definition PromptConfig_dict (c : PromptConfig) : gmap string string :=
  <["question_prefix" := question_prefix c]>
    (<["answer_prefix" := answer_prefix c]>
       (<["final_answer_prefix" := final_answer_prefix c]>
          (<["intra_example_sep" := intra_example_sep c]>
             (<["inter_example_sep" := inter_example_sep c]> ∅)))).

(** Arguments that repeat the fields of a configuration. *)
Definition args_of_config (c : PromptConfig) : Args :=
  {| args_question_prefix := question_prefix c;
     args_answer_prefix := answer_prefix c;
     args_final_answer_prefix := final_answer_prefix c;
     args_intra_example_sep := intra_example_sep c;
     args_inter_example_sep := inter_example_sep c |}.

(** The total length of the blocks of a list of examples. *)
Definition blocks_length (c : PromptConfig) (cot : bool)
    (examples : list Example) : nat :=
  sum_list (String.length ∘ Spec.example_block c cot <$> examples).

(** ** Concrete inputs *)

(** [Example(question="2+2?", answer="4", thought="add")] *)
Definition example_2plus2 : Example :=
  {| question := "2+2?"; answer := "4"; thought := Some "add" |}.

(** The literal of the specification's chain-of-thought scenario: it ends in
    two line feeds. *)
Definition scenario_literal : string :=
  "Q: 2+2?" +:+ Str.newline +:+ "A: add The answer is 4"
  +:+ Str.newline +:+ Str.newline.

(** A pool of [n] examples with the questions ["q"], ["qq"], ... *)
Fixpoint numbered_pool (n : nat) : list Example :=
  match n with
  | O => []
  | S n' =>
      numbered_pool n'
      ++ [{| question := Str.concat (replicate n "q");
             answer := "a"; thought := Some "t" |}]
  end.

(** A configuration whose answer prefix has white space at both ends. *)
Definition padded_config : PromptConfig :=
  {| question_prefix := "Q: ";
     answer_prefix := " A: ";
     final_answer_prefix := "The answer is ";
     intra_example_sep := Str.newline;
     inter_example_sep := Str.newline +:+ Str.newline |}.

(** An environment with one task file of two lines and one registered task.
    Its parser takes the line as the input and the line after ["="] as the
    target; it stands for [json.loads] on concrete inputs only. *)
Definition demo_env : Env :=
  {| files := {[ "data/tasks/gsm.jsonl" := ["1+1?"; "2+3?"] ]};
     json_loads := fun line => Some {| input := line; target := "=" +:+ line |};
     task_id_to_prompt := {[ "gsm_cot" := ExampleList [example_2plus2] ]} |}.

Definition demo_task : PromptLib.TaskConfig :=
  {| PromptLib.task_id := "gsm_cot";
     PromptLib.tag := "demo";
     PromptLib.num_prompt_examples := 1;
     PromptLib.max_tokens := 100;
     PromptLib.seed := 0;
     PromptLib.num_questions_per_thread := 1;
     PromptLib.is_cot_task := true;
     PromptLib.model_name := "davinci";
     PromptLib.cached_timestamp := "";
     PromptLib.max_requests_per_min := 10;
     PromptLib.prompt_config := PromptConfig_default |}.

Definition demo_task' : Prompts.TaskConfig :=
  {| Prompts.task_id := "gsm_cot";
     Prompts.tag := "demo";
     Prompts.num_examples := 1;
     Prompts.max_tokens := 100;
     Prompts.timeout := 30;
     Prompts.seed := 0;
     Prompts.num_questions_per_thread := 1;
     Prompts.is_cot_task := true;
     Prompts.model_name := "davinci";
     Prompts.cached_timestamp := "";
     Prompts.max_requests_per_min := 10;
     Prompts.prompt_config := PromptConfig_default |}.

(** Arguments whose separators are written with escaped newlines. *)
Definition demo_args : Args :=
  {| args_question_prefix := "Q: ";
     args_answer_prefix := "A: ";
     args_final_answer_prefix := "The answer is ";
     args_intra_example_sep := Str.escaped_newline;
     args_inter_example_sep := Str.escaped_newline +:+ Str.escaped_newline |}.

(** An environment whose task file has a line that does not parse, one whose
    task file is empty, and one whose registry holds a literal prompt. *)
Definition bad_line_env : Env :=
  {| files := {[ "data/tasks/gsm.jsonl" := ["1+1?"; "oops"] ]};
     json_loads := fun line =>
       if String.eqb line "oops" then None
       else Some {| input := line; target := "=" +:+ line |};
     task_id_to_prompt := {[ "gsm_cot" := ExampleList [example_2plus2] ]} |}.

Definition empty_file_env : Env :=
  {| files := {[ "data/tasks/gsm.jsonl" := [] ]};
     json_loads := json_loads demo_env;
     task_id_to_prompt := task_id_to_prompt demo_env |}.

Definition literal_env : Env :=
  {| files := files demo_env;
     json_loads := json_loads demo_env;
     task_id_to_prompt := {[ "gsm_cot" := PromptStr "Solve." ]} |}.

(** [demo_task] with another count, seed and chain-of-thought flag. *)
Definition demo_task_other : PromptLib.TaskConfig :=
  {| PromptLib.task_id := "gsm_cot";
     PromptLib.tag := "demo";
     PromptLib.num_prompt_examples := 7;
     PromptLib.max_tokens := 100;
     PromptLib.seed := 42;
     PromptLib.num_questions_per_thread := 1;
     PromptLib.is_cot_task := false;
     PromptLib.model_name := "davinci";
     PromptLib.cached_timestamp := "";
     PromptLib.max_requests_per_min := 10;
     PromptLib.prompt_config := PromptConfig_default |}.


(** An example without a thought. *)
Definition example_no_thought : Example :=
  {| question := "3+3?"; answer := "6"; thought := None |}.

(** ** Properties of the string functions *)

Lemma str_app_nil_l (s : string) : "" +:+ s = s.
Proof. reflexivity. Qed.

Lemma str_app_cons (c : ascii) (s t : string) :
  String c s +:+ t = String c (s +:+ t).
Proof. reflexivity. Qed.

Lemma str_app_nil_r (s : string) : s +:+ "" = s.
Proof. induction s as [|c s IH]; [done|]. by rewrite str_app_cons, IH. Qed.

Lemma str_app_assoc (s t u : string) : (s +:+ t) +:+ u = s +:+ (t +:+ u).
Proof.
  induction s as [|c s IH]; [done|]. by rewrite !str_app_cons, IH.
Qed.

Lemma endswith_refl (s : string) : Str.endswith s s = true.
Proof. destruct s; cbn [Str.endswith]; by rewrite String.eqb_refl. Qed.

Lemma endswith_app (s t : string) : Str.endswith (s +:+ t) t = true.
Proof.
  induction s as [|c s IH].
  - apply endswith_refl.
  - rewrite str_app_cons. cbn [Str.endswith]. rewrite IH. apply orb_true_r.
Qed.

Lemma concat_app (l1 l2 : list string) :
  Str.concat (l1 ++ l2) = Str.concat l1 +:+ Str.concat l2.
Proof.
  induction l1 as [|s l1 IH]; simpl; [done|]. by rewrite IH, str_app_assoc.
Qed.

(** ** Formatting: the loop of the code against the blocks of the spec *)

Lemma format_example_block c cot acc e :
  (cot = true -> is_Some (thought e)) ->
  format_example c cot acc e = Ok (acc +:+ Spec.example_block c cot e).
Proof.
  intros Hth. unfold format_example, Spec.example_block.
  destruct cot; simpl.
  - destruct Hth as [th ->]; [done|]. simpl. by rewrite !str_app_assoc.
  - by rewrite !str_app_assoc.
Qed.

Lemma format_loop_assemble c cot selected acc :
  thoughts_present cot selected ->
  format_loop c cot selected acc = Ok (acc +:+ Spec.assemble c cot selected).
Proof.
  unfold thoughts_present, Spec.assemble.
  revert acc. induction selected as [|e l IH]; intros acc Hth; simpl.
  - by rewrite str_app_nil_r.
  - rewrite format_example_block.
    + simpl. rewrite IH, str_app_assoc; [done|].
      intros Hc. specialize (Hth Hc). by inversion Hth.
    + intros Hc. specialize (Hth Hc). by inversion Hth.
Qed.

Lemma format_loop_terminates c cot selected acc :
  terminates (format_loop c cot selected acc).
Proof.
  revert acc. induction selected as [|e l IH]; intros acc; simpl; [done|].
  unfold format_example. destruct cot; simpl.
  - destruct (thought e); simpl; [apply IH | done].
  - apply IH.
Qed.

Lemma assemble_endswith c cot selected :
  selected <> [] ->
  Str.endswith (Spec.assemble c cot selected) (inter_example_sep c) = true.
Proof.
  intros Hne. destruct (exists_last Hne) as (l & e & ->).
  unfold Spec.assemble. rewrite fmap_app, concat_app. simpl.
  rewrite str_app_nil_r. unfold Spec.example_block.
  rewrite <- !str_app_assoc. apply endswith_app.
Qed.

Lemma format_prompt_make_prompt rng fuel pool c num seed cot :
  Prompts.format_prompt rng fuel pool c num seed cot
  = PromptLib.make_prompt rng fuel pool c num seed cot.
Proof. reflexivity. Qed.

(** ** The sampler *)

Lemma insert_swap_Permutation {A} (l : list A) (j : nat) (x y : A) :
  l !! j = Some x -> <[j:=y]> l ++ [x] ≡ₚ l ++ [y].
Proof.
  revert j. induction l as [|a l IH]; intros [|j] Hj; simplify_eq/=.
  - rewrite <- !Permutation_cons_append. apply perm_swap.
  - by rewrite (IH j Hj).
Qed.

Section SamplerFacts.
Context (rng : Generator).

(** The first loop does the same thing to a list and to its image under a
    function: it moves elements and never looks into them. *)
Lemma sample_pool_fmap {A B} (f : A -> B) todo i n g (pool result : list A) :
  PyRandom.sample_pool rng todo i n g (f <$> pool) (f <$> result)
  = fmap (M:=list) f <$> PyRandom.sample_pool rng todo i n g pool result.
Proof.
  revert i g pool result.
  induction todo as [|todo IH]; intros i g pool result; simpl; [done|].
  destruct (randbelow rng g (n - i)) as [j g'].
  rewrite !list_lookup_fmap.
  destruct (pool !! j) as [x|]; simpl; [|done].
  destruct (pool !! (n - i - 1)) as [y|]; simpl; [|done].
  rewrite <- IH. by rewrite list_fmap_insert, fmap_app.
Qed.

(** Invariant of the first loop: the elements not yet selected are the first
    [n - i] of [pool], and together with [result] they are the population.
    With a lawful generator no index is out of range. *)
Lemma sample_pool_inv {A} todo i n g (pool result : list A) :
  lawful rng -> length pool = n -> i + todo <= n ->
  exists r rest,
    PyRandom.sample_pool rng todo i n g pool result = Ok r
    /\ rest ++ r ≡ₚ take (n - i) pool ++ result
    /\ length r = length result + todo.
Proof.
  intros Hrng. revert i g pool result.
  induction todo as [|todo IH]; intros i g pool result Hlen Hi; simpl.
  - exists result, (take (n - i) pool). split_and!; [done|done|lia].
  - pose proof (Hrng g (n - i) ltac:(lia)) as Hj.
    destruct (randbelow rng g (n - i)) as [j g']. simpl in Hj.
    destruct (lookup_lt_is_Some_2 pool j ltac:(lia)) as [x Hx].
    destruct (lookup_lt_is_Some_2 pool (n - i - 1) ltac:(lia)) as [y Hy].
    rewrite Hx, Hy.
    destruct (IH (S i) g' (<[j:=y]> pool) (result ++ [x])) as (r & rest & Hr & Hp & Hl).
    { by rewrite length_insert. }
    { lia. }
    exists r, rest. split_and!; [done| |rewrite length_app in Hl; simpl in Hl; lia].
    rewrite Hp. replace (n - i) with (S (n - S i)) by lia.
    replace (n - i - 1) with (n - S i) in Hy by lia.
    rewrite (take_S_r pool (n - S i) y Hy).
    destruct (decide (j = n - S i)) as [->|Hne].
    + rewrite take_insert_ge by lia. simplify_eq.
      rewrite <- !(assoc_L (++)). apply Permutation_app_head, Permutation_app_comm.
    + rewrite take_insert_lt by lia.
      assert (take (n - S i) pool !! j = Some x) as Hx'.
      { by rewrite lookup_take_lt by lia. }
      rewrite <- (insert_swap_Permutation _ j x y Hx').
      rewrite <- !(assoc_L (++)). apply Permutation_app_head, Permutation_app_comm.
Qed.

(** The positions drawn by the first loop: pairwise distinct, and all of the
    positions when the whole population is asked for. *)
Lemma sample_pool_positions {A} k g (population : list A) :
  lawful rng -> k <= length population ->
  exists idxs r,
    PyRandom.sample_pool rng k 0 (length population) g population [] = Ok r
    /\ NoDup idxs
    /\ length idxs = k
    /\ Forall2 (fun i x => population !! i = Some x) idxs r
    /\ (k = length population ->
        idxs ≡ₚ seq 0 (length population) /\ r ≡ₚ population).
Proof.
  intros Hrng Hk. set (n := length population).
  destruct (sample_pool_inv k 0 n g (seq 0 n) [] Hrng) as (idxs & rest & Hr & Hp & Hl).
  { apply length_seq. }
  { lia. }
  rewrite (right_id_L [] (++)), Nat.sub_0_r in Hp.
  rewrite take_ge in Hp by (rewrite length_seq; lia).
  assert (NoDup (rest ++ idxs)) as Hnd by (rewrite Hp; apply NoDup_seq).
  assert (forall i, i ∈ idxs -> i < n) as Hlt.
  { intros i Hi. assert (i ∈ seq 0 n) as Hin by (rewrite <- Hp; set_solver).
    apply elem_of_seq in Hin. lia. }
  assert (population = [] \/ exists d : A, True) as [Hpop|[d _]].
  { destruct population; eauto. }
  { subst population n. assert (k = 0) as -> by (simpl in Hk; lia).
    exists [], []. split_and!; try done. constructor. }
  set (f := fun i => default d (population !! i)).
  assert (population = f <$> seq 0 n) as Hf.
  { apply list_eq. intros i. rewrite list_lookup_fmap.
    destruct (decide (i < n)) as [Hi|Hi].
    - rewrite lookup_seq_lt by done. simpl. unfold f.
      destruct (lookup_lt_is_Some_2 population i Hi) as [x ->]. done.
    - rewrite lookup_seq_ge by lia. simpl. apply lookup_ge_None. fold n. lia. }
  exists idxs, (f <$> idxs). split_and!.
  - assert (PyRandom.sample_pool rng k 0 n g population []
            = PyRandom.sample_pool rng k 0 n g (f <$> seq 0 n) (f <$> []))
      as -> by (by rewrite <- Hf).
    by rewrite sample_pool_fmap, Hr.
  - by apply NoDup_app in Hnd as (_ & _ & ?).
  - simpl in Hl. lia.
  - apply Forall2_fmap_r, Forall2_same_length_lookup. split; [done|].
    intros i a b Ha Hb. simplify_eq. simpl. unfold f.
    assert (a < n) as Ha' by (apply Hlt; by eapply list_elem_of_lookup_2).
    destruct (lookup_lt_is_Some_2 population a Ha') as [x Hx].
    by rewrite Hx.
  - intros ->. assert (rest = []) as ->.
    { apply Permutation_length in Hp. rewrite length_app, length_seq in Hp.
      simpl in Hl. apply nil_length_inv. lia. }
    split; [done|].
    transitivity (f <$> seq 0 n); [by apply fmap_Permutation|by rewrite <- Hf].
Qed.

End SamplerFacts.

(** [4 ** ceil(log(x, 4))] is at least [x]. *)
Lemma ceil_log4_spec (x : nat) : x <= 4 ^ PyRandom.ceil_log4 x.
Proof.
  destruct (decide (x = 0)) as [->|Hx]; [lia|].
  apply Nat2Z.inj_le. rewrite Nat2Z.inj_pow. unfold PyRandom.ceil_log4.
  pose proof (Z.log2_up_nonneg (Z.of_nat x)) as HL.
  pose proof (Z.log2_log2_up_spec (Z.of_nat x) ltac:(lia)) as [_ Hup].
  set (L := Z.log2_up (Z.of_nat x)) in *.
  rewrite Z2Nat.id by (apply Z.div_pos; lia).
  change (Z.of_nat 4) with (2 ^ 2)%Z.
  rewrite <- Z.pow_mul_r by (try apply Z.div_pos; lia).
  etrans; [exact Hup|]. apply Z.pow_le_mono_r; [lia|].
  pose proof (Z.div_mod (L + 1) 2 ltac:(lia)).
  pose proof (Z.mod_pos_bound (L + 1) 2 ltac:(lia)). lia.
Qed.

(** A request for the whole population always takes the first loop. *)
Lemma setsize_ge (n : nat) : n <= PyRandom.setsize n.
Proof.
  unfold PyRandom.setsize. case_decide; [|lia].
  pose proof (ceil_log4_spec (n * 3)). lia.
Qed.

Section SamplerLoops.
Context (rng : Generator).

Lemma draw_fresh_fresh fuel n selected g j g' :
  PyRandom.draw_fresh rng fuel n selected g = Ok (j, g') -> j ∉ selected.
Proof.
  revert g. induction fuel as [|fuel IH]; intros g; simpl; [done|].
  destruct (randbelow rng g n) as [j0 g0].
  case_decide; [apply IH|]. intros [= -> ->]. done.
Qed.

(** More fuel does not change a draw that has ended. *)
Lemma draw_fresh_mono fuel fuel' n selected g :
  terminates (PyRandom.draw_fresh rng fuel n selected g) -> fuel <= fuel' ->
  PyRandom.draw_fresh rng fuel' n selected g
  = PyRandom.draw_fresh rng fuel n selected g.
Proof.
  revert fuel' g. induction fuel as [|fuel IH]; intros fuel' g; simpl; [done|].
  intros Ht Hle. destruct fuel' as [|fuel']; [lia|]. simpl.
  destruct (randbelow rng g n) as [j0 g0].
  case_decide; [|done]. apply IH; [done|lia].
Qed.

(** The positions drawn by the second loop are pairwise distinct and were not
    selected before. *)
Lemma sample_set_positions {A} fuel todo n g selected (population result r : list A) :
  PyRandom.sample_set rng fuel todo n g selected population result = Ok r ->
  exists idxs picked,
    r = result ++ picked
    /\ Forall2 (fun i x => population !! i = Some x) idxs picked
    /\ NoDup idxs
    /\ (forall i, i ∈ idxs -> i ∉ selected)
    /\ length idxs = todo.
Proof.
  revert g selected result.
  induction todo as [|todo IH]; intros g selected result; simpl.
  - intros [= <-]. exists [], []. rewrite (right_id_L [] (++)).
    split_and!; [done|constructor|apply NoDup_nil_2|set_solver|done].
  - destruct (PyRandom.draw_fresh rng fuel n selected g) as [[j g']| |] eqn:Hd;
      simpl; [|done|done].
    apply draw_fresh_fresh in Hd.
    destruct (population !! j) as [x|] eqn:Hx; [|done].
    intros (idxs & picked & -> & Hf & Hnd & Hsel & Hlen)%IH.
    exists (j :: idxs), (x :: picked). split_and!.
    + by rewrite <- (assoc_L (++)).
    + by constructor.
    + constructor; [|done]. intros Hj. apply (Hsel j Hj). set_solver.
    + intros i [->|Hi]%elem_of_cons; [done|].
      specialize (Hsel i Hi). set_solver.
    + simpl. by rewrite Hlen.
Qed.

Lemma sample_set_mono {A} fuel fuel' todo n g selected (population result : list A) :
  terminates (PyRandom.sample_set rng fuel todo n g selected population result) ->
  fuel <= fuel' ->
  PyRandom.sample_set rng fuel' todo n g selected population result
  = PyRandom.sample_set rng fuel todo n g selected population result.
Proof.
  revert g selected result.
  induction todo as [|todo IH]; intros g selected result; simpl; [done|].
  intros Ht Hle.
  assert (terminates (PyRandom.draw_fresh rng fuel n selected g)) as Htd.
  { by destruct (PyRandom.draw_fresh rng fuel n selected g). }
  rewrite (draw_fresh_mono fuel fuel') by done.
  destruct (PyRandom.draw_fresh rng fuel n selected g) as [[j g']| |];
    simpl in *; [|done|done].
  destruct (population !! j) as [x|]; [|done]. by apply IH.
Qed.

(** ** [Random.sample] *)

Lemma sample_too_large {A} fuel g (population : list A) (k : Z) :
  (Z.of_nat (length population) < k)%Z ->
  PyRandom.sample rng fuel g population k
  = Raise sample_error.
Proof. intros Hk. unfold PyRandom.sample. case_decide; [lia|done]. Qed.

Lemma sample_mono {A} fuel fuel' g (population : list A) k :
  terminates (PyRandom.sample rng fuel g population k) -> fuel <= fuel' ->
  PyRandom.sample rng fuel' g population k
  = PyRandom.sample rng fuel g population k.
Proof.
  unfold PyRandom.sample. case_decide; [|done]. case_decide; [done|].
  apply sample_set_mono.
Qed.

(** Two runs that end give the same result, whatever fuel each was given. *)
Lemma sample_fuel_irrelevant {A} fuel1 fuel2 g (population : list A) k :
  terminates (PyRandom.sample rng fuel1 g population k) ->
  terminates (PyRandom.sample rng fuel2 g population k) ->
  PyRandom.sample rng fuel1 g population k
  = PyRandom.sample rng fuel2 g population k.
Proof.
  intros H1 H2. destruct (decide (fuel1 <= fuel2)).
  - symmetry. by apply sample_mono.
  - apply sample_mono; [done|lia].
Qed.

(** A sample that is returned consists of pairwise distinct positions of the
    population, as many as were asked for. *)
Lemma sample_positions {A} fuel g (population r : list A) k :
  lawful rng ->
  PyRandom.sample rng fuel g population k = Ok r ->
  exists idxs,
    NoDup idxs
    /\ length idxs = Z.to_nat k
    /\ Forall2 (fun i x => population !! i = Some x) idxs r.
Proof.
  intros Hrng. unfold PyRandom.sample. case_decide as Hk; [|done].
  case_decide.
  - destruct (sample_pool_positions rng (Z.to_nat k) g population Hrng)
      as (idxs & r' & Hr & Hnd & Hlen & Hf & _); [lia|].
    rewrite Hr. intros [= <-]. by exists idxs.
  - intros (idxs & picked & -> & Hf & Hnd & _ & Hlen)%sample_set_positions.
    by exists idxs.
Qed.

(** A sample of the size of the population is returned with any fuel, and it
    holds every position once. *)
Lemma sample_all {A} fuel g (population : list A) :
  lawful rng ->
  exists idxs r,
    PyRandom.sample rng fuel g population (Z.of_nat (length population)) = Ok r
    /\ idxs ≡ₚ seq 0 (length population)
    /\ r ≡ₚ population
    /\ Forall2 (fun i x => population !! i = Some x) idxs r.
Proof.
  intros Hrng. unfold PyRandom.sample. rewrite decide_True by lia.
  rewrite Nat2Z.id. rewrite decide_True by apply setsize_ge.
  destruct (sample_pool_positions rng (length population) g population Hrng)
    as (idxs & r & Hr & _ & _ & Hf & Hp); [lia|].
  exists idxs, r. split_and!; [done|by apply Hp|by apply Hp|done].
Qed.

End SamplerLoops.

(** ** [make_prompt] and [format_prompt] *)

Lemma counter_rng_lawful : lawful counter_rng.
Proof. intros g n Hn. simpl. apply Nat.mod_upper_bound. lia. Qed.

Lemma bind_terminates {A B} (m : Res A) (f : A -> Res B) :
  terminates (m ≫= f) -> terminates m.
Proof. by destruct m. Qed.

Lemma select_examples_fuel_irrelevant rng fuel1 fuel2 pool num seed :
  terminates (select_examples rng fuel1 pool num seed) ->
  terminates (select_examples rng fuel2 pool num seed) ->
  select_examples rng fuel1 pool num seed = select_examples rng fuel2 pool num seed.
Proof. apply sample_fuel_irrelevant. Qed.

(** [format_prompt] is read as [make_prompt] in a goal. *)
Ltac format_as_make :=
  repeat match goal with
    | |- context [Prompts.format_prompt ?a ?b ?c ?d ?e ?f ?g] =>
        change (Prompts.format_prompt a b c d e f g)
          with (PromptLib.make_prompt a b c d e f g)
    end.

Lemma make_prompt_unfold rng fuel pool c num seed cot :
  PromptLib.make_prompt rng fuel (ExampleList pool) c num seed cot
  = select_examples rng fuel pool num seed ≫= fun examples =>
      format_loop c cot examples "".
Proof. reflexivity. Qed.

(** C1. [make_prompt] is deterministic.  Its result is a function of its
    arguments alone: the generator is created from the seed inside the call,
    and the only loop whose length depends on it, the rejection loop of the
    sampler, gives the same result in any two runs that end.  So two calls
    with the same pool, configuration, count, seed and chain-of-thought flag
    return the same string (or raise the same exception), and select the same
    examples in the same order; [format_prompt] is the same function. *)
Theorem make_prompt_deterministic rng pool c num seed cot fuel1 fuel2 :
  terminates (PromptLib.make_prompt rng fuel1 pool c num seed cot) ->
  terminates (PromptLib.make_prompt rng fuel2 pool c num seed cot) ->
  PromptLib.make_prompt rng fuel1 pool c num seed cot
  = PromptLib.make_prompt rng fuel2 pool c num seed cot
  /\ Prompts.format_prompt rng fuel1 pool c num seed cot
     = Prompts.format_prompt rng fuel2 pool c num seed cot
  /\ Prompts.format_prompt rng fuel1 pool c num seed cot
     = PromptLib.make_prompt rng fuel1 pool c num seed cot
  /\ (forall examples, pool = ExampleList examples ->
        select_examples rng fuel1 examples num seed
        = select_examples rng fuel2 examples num seed).
Proof.
  intros H1 H2. format_as_make.
  destruct pool as [s|examples]; [by split_and!|].
  rewrite !make_prompt_unfold in *.
  apply bind_terminates in H1, H2.
  pose proof (select_examples_fuel_irrelevant _ _ _ _ _ _ H1 H2) as Heq.
  rewrite Heq. split_and!; try done. by intros ? [= <-].
Qed.

Lemma make_prompt_deterministic_witness :
  terminates (PromptLib.make_prompt counter_rng 1 (ExampleList (numbered_pool 30))
                PromptConfig_default 3 7 true)
  /\ terminates (PromptLib.make_prompt counter_rng 4 (ExampleList (numbered_pool 30))
                   PromptConfig_default 3 7 true)
  /\ PromptLib.make_prompt counter_rng 1 (ExampleList (numbered_pool 30))
       PromptConfig_default 3 7 true
     = PromptLib.make_prompt counter_rng 4 (ExampleList (numbered_pool 30))
         PromptConfig_default 3 7 true.
Proof.
  assert (terminates (PromptLib.make_prompt counter_rng 1
            (ExampleList (numbered_pool 30)) PromptConfig_default 3 7 true)) as H1
    by (vm_compute; exact I).
  assert (terminates (PromptLib.make_prompt counter_rng 4
            (ExampleList (numbered_pool 30)) PromptConfig_default 3 7 true)) as H2
    by (vm_compute; exact I).
  split_and!; [exact H1|exact H2|].
  exact (proj1 (make_prompt_deterministic counter_rng
           (ExampleList (numbered_pool 30)) PromptConfig_default 3 7 true 1 4 H1 H2)).
Defined.

(** C2. For a pool that is a list of examples, the prompt is the blocks of
    the selected examples in the sampled order; a block is
    [question_prefix + question + intra_example_sep], then
    [answer_prefix + thought + " " + final_answer_prefix + answer
    + intra_example_sep] with chain of thought and
    [answer_prefix + final_answer_prefix + answer + intra_example_sep]
    without, then [inter_example_sep].  The separator follows every example,
    the last one too, so a prompt of at least one example ends with it. *)
Theorem make_prompt_appends_blocks rng fuel pool c num seed cot selected :
  select_examples rng fuel pool num seed = Ok selected ->
  thoughts_present cot selected ->
  PromptLib.make_prompt rng fuel (ExampleList pool) c num seed cot
  = Ok (Spec.assemble c cot selected)
  /\ Prompts.format_prompt rng fuel (ExampleList pool) c num seed cot
     = Ok (Spec.assemble c cot selected)
  /\ (selected <> [] ->
      Str.endswith (Spec.assemble c cot selected) (inter_example_sep c) = true).
Proof.
  intros Hsel Hth. format_as_make. rewrite make_prompt_unfold, Hsel.
  simpl. rewrite (format_loop_assemble c cot selected "" Hth), str_app_nil_l.
  split_and!; [done|done|apply assemble_endswith].
Qed.

Lemma make_prompt_appends_blocks_witness :
  select_examples counter_rng 0 (numbered_pool 3) 2 4
  = Ok (drop 1 (numbered_pool 3))
  /\ thoughts_present true (drop 1 (numbered_pool 3))
  /\ PromptLib.make_prompt counter_rng 0 (ExampleList (numbered_pool 3))
       PromptConfig_default 2 4 true
     = Ok (Spec.assemble PromptConfig_default true
             (drop 1 (numbered_pool 3))).
Proof.
  assert (select_examples counter_rng 0 (numbered_pool 3) 2 4
          = Ok (drop 1 (numbered_pool 3))) as Hsel
    by (vm_compute; reflexivity).
  assert (thoughts_present true (drop 1 (numbered_pool 3)))
    as Hth.
  { intros _. vm_compute. repeat constructor; by eexists. }
  split_and!; [exact Hsel|exact Hth|].
  exact (proj1 (make_prompt_appends_blocks counter_rng 0 (numbered_pool 3)
           PromptConfig_default 2 4 true _ Hsel Hth)).
Defined.

(** The chain-of-thought scenario, on any generator: the one example is at
    position 0, and any other position is out of range. *)
Lemma scenario_outcome rng fuel :
  PromptLib.make_prompt rng fuel (ExampleList [example_2plus2])
    PromptConfig_default 1 0 true
  = Ok (scenario_literal +:+ Str.newline)
  \/ PromptLib.make_prompt rng fuel (ExampleList [example_2plus2])
       PromptConfig_default 1 0 true
     = Raise IndexError.
Proof.
  unfold PromptLib.make_prompt, select_examples, PyRandom.sample. simpl.
  destruct (randbelow rng (Random rng 0) 1) as [[|j] g']; simpl; auto.
Qed.

(** C3, as amended.  For the pool of the one example
    [Example(question="2+2?", answer="4", thought="add")], the default
    configuration, count 1, seed 0 and chain of thought, [make_prompt]
    returns ["Q: 2+2?\nA: add The answer is 4\n\n\n"]: the line feed of
    [intra_example_sep] closes the answer line and the two line feeds of
    [inter_example_sep] follow it. *)
Theorem scenario_three_newlines rng fuel :
  lawful rng ->
  PromptLib.make_prompt rng fuel (ExampleList [example_2plus2])
    PromptConfig_default 1 0 true
  = Ok (scenario_literal +:+ Str.newline)
  /\ Prompts.format_prompt rng fuel (ExampleList [example_2plus2])
       PromptConfig_default 1 0 true
     = Ok (scenario_literal +:+ Str.newline).
Proof.
  intros Hrng. format_as_make.
  unfold PromptLib.make_prompt, select_examples, PyRandom.sample. simpl.
  pose proof (Hrng (Random rng 0) 1 ltac:(lia)) as Hj.
  destruct (randbelow rng (Random rng 0) 1) as [j g']. simpl in Hj.
  assert (j = 0) as -> by lia. done.
Qed.

Lemma scenario_three_newlines_witness :
  lawful counter_rng
  /\ PromptLib.make_prompt counter_rng 0 (ExampleList [example_2plus2])
       PromptConfig_default 1 0 true
     = Ok (scenario_literal +:+ Str.newline).
Proof.
  split; [exact counter_rng_lawful|].
  exact (proj1 (scenario_three_newlines counter_rng 0 counter_rng_lawful)).
Defined.

(** C3, as stated, fails: on no generator and with no fuel does the call
    return the literal ["Q: 2+2?\nA: add The answer is 4\n\n"], which ends in
    two line feeds. *)
Lemma scenario_literal_not_returned :
  ~ exists rng fuel,
      PromptLib.make_prompt rng fuel (ExampleList [example_2plus2])
        PromptConfig_default 1 0 true
      = Ok scenario_literal.
Proof.
  intros (rng & fuel & H).
  destruct (scenario_outcome rng fuel) as [Hr|Hr]; rewrite Hr in H.
  - vm_compute in H. discriminate H.
  - discriminate H.
Qed.

(** C4. With [num_prompt_examples == -1] every example of the pool is
    selected exactly once: the selected positions are the positions of the
    pool, each once, in some order.  The call returns with any fuel, and the
    prompt holds the block of each example of the pool once. *)
Theorem make_prompt_all_examples rng fuel pool c seed cot :
  lawful rng -> pool <> [] ->
  exists idxs selected,
    idxs ≡ₚ seq 0 (length pool)
    /\ at_positions pool idxs selected
    /\ selected ≡ₚ pool
    /\ select_examples rng fuel pool (-1) seed = Ok selected
    /\ PromptLib.make_prompt rng fuel (ExampleList pool) c (-1) seed cot
       = format_loop c cot selected ""
    /\ Prompts.format_prompt rng fuel (ExampleList pool) c (-1) seed cot
       = format_loop c cot selected ""
    /\ (thoughts_present cot selected ->
        PromptLib.make_prompt rng fuel (ExampleList pool) c (-1) seed cot
        = Ok (Spec.assemble c cot selected)).
Proof.
  intros Hrng _.
  destruct (sample_all rng fuel (Random rng seed) pool Hrng)
    as (idxs & selected & Hs & Hp & Hq & Hf).
  assert (select_examples rng fuel pool (-1) seed = Ok selected) as Hsel.
  { unfold select_examples. by rewrite decide_True. }
  exists idxs, selected. format_as_make. rewrite make_prompt_unfold, Hsel.
  split_and!; try done.
  intros Hth. simpl. by rewrite (format_loop_assemble c cot selected "" Hth).
Qed.

Lemma make_prompt_all_examples_witness :
  lawful counter_rng
  /\ numbered_pool 3 <> []
  /\ exists idxs selected,
       idxs ≡ₚ seq 0 3
       /\ selected ≡ₚ numbered_pool 3
       /\ select_examples counter_rng 0 (numbered_pool 3) (-1) 4 = Ok selected.
Proof.
  assert (numbered_pool 3 <> []) as Hne by (vm_compute; discriminate).
  split_and!; [exact counter_rng_lawful|exact Hne|].
  destruct (make_prompt_all_examples counter_rng 0 (numbered_pool 3)
              PromptConfig_default 4 true counter_rng_lawful Hne)
    as (idxs & selected & Hp & _ & Hq & Hsel & _).
  exists idxs, selected. split_and!; [exact Hp|exact Hq|exact Hsel].
Defined.

(** C5. A count greater than the size of the pool makes [make_prompt] fail
    with the error of the sampler (the [ValueError] "Sample larger than
    population or is negative", which the specification calls
    [InsufficientExamples]): nothing is truncated to the size of the pool.
    Sampling is without replacement: a prompt that is returned was built from
    examples at pairwise distinct positions of the pool. *)
Theorem make_prompt_insufficient_examples rng fuel pool c count seed cot :
  lawful rng ->
  ((Z.of_nat (length pool) < count)%Z ->
     PromptLib.make_prompt rng fuel (ExampleList pool) c count seed cot
     = Raise sample_error
     /\ Prompts.format_prompt rng fuel (ExampleList pool) c count seed cot
        = Raise sample_error)
  /\ (forall s,
        PromptLib.make_prompt rng fuel (ExampleList pool) c count seed cot = Ok s ->
        exists idxs selected,
          NoDup idxs
          /\ at_positions pool idxs selected
          /\ select_examples rng fuel pool count seed = Ok selected
          /\ format_loop c cot selected "" = Ok s).
Proof.
  intros Hrng. format_as_make. rewrite make_prompt_unfold. split.
  - intros Hk. unfold select_examples. rewrite decide_False by lia.
    by rewrite sample_too_large.
  - intros s Hs.
    destruct (select_examples rng fuel pool count seed) as [selected| |] eqn:Hsel;
      simpl in Hs; [|done|done].
    apply (sample_positions rng) in Hsel as (idxs & Hnd & _ & Hf); [|done].
    by exists idxs, selected.
Qed.

Lemma make_prompt_insufficient_examples_witness :
  lawful counter_rng
  /\ PromptLib.make_prompt counter_rng 0 (ExampleList (numbered_pool 3))
       PromptConfig_default 4 0 false
     = Raise sample_error.
Proof.
  split; [exact counter_rng_lawful|].
  refine (proj1 (proj1 (make_prompt_insufficient_examples counter_rng 0
            (numbered_pool 3) PromptConfig_default 4 0 false counter_rng_lawful) _)).
  vm_compute. reflexivity.
Defined.

(** C6. For a [PromptStr] pool [make_prompt] returns the wrapped string
    unchanged, whatever the configuration, the count, the seed and the
    chain-of-thought flag: any two calls on the same [PromptStr] return the
    same string. *)
Theorem make_prompt_prompt_str rng1 rng2 fuel1 fuel2 s c1 c2 n1 n2 seed1 seed2
    cot1 cot2 :
  PromptLib.make_prompt rng1 fuel1 (PromptStr s) c1 n1 seed1 cot1 = Ok s
  /\ Prompts.format_prompt rng1 fuel1 (PromptStr s) c1 n1 seed1 cot1 = Ok s
  /\ PromptLib.make_prompt rng1 fuel1 (PromptStr s) c1 n1 seed1 cot1
     = PromptLib.make_prompt rng2 fuel2 (PromptStr s) c2 n2 seed2 cot2
  /\ Prompts.format_prompt rng1 fuel1 (PromptStr s) c1 n1 seed1 cot1
     = Prompts.format_prompt rng2 fuel2 (PromptStr s) c2 n2 seed2 cot2.
Proof. by split_and!. Qed.

(** ** The task file *)

(** C7.  The last summand of [question] at the answer prefix [" A: "]: for
    the model ["davinci"] the code computes ["A:"], because [strip] removes
    the white space at both ends, where trimming on the right alone gives
    [" A:"]; for the model ["code-cushman"] the prefix is kept as it is. *)
Theorem query_answer_prefix_strips_both_ends :
  query_answer_prefix padded_config "davinci" = "A:"
  /\ Spec.trimmed_or_raw_answer_prefix padded_config "davinci" = " A:"
  /\ query_answer_prefix padded_config "davinci"
     <> Spec.trimmed_or_raw_answer_prefix padded_config "davinci"
  /\ query_answer_prefix padded_config "code-cushman" = " A: "
  /\ Spec.trimmed_or_raw_answer_prefix padded_config "code-cushman" = " A: ".
Proof. split_and!; by vm_compute. Qed.


Lemma make_task_file_same rng env fuel tc tc' :
  same_task tc tc' ->
  Prompts.make_task_file_from_config rng env fuel tc'
  = PromptLib.make_task_file_from_config rng env fuel tc.
Proof.
  intros (H1 & H2 & H3 & H4 & H5 & H6).
  unfold Prompts.make_task_file_from_config, PromptLib.make_task_file_from_config.
  rewrite H1, H2, H3, H4, H5, H6. reflexivity.
Qed.







(** ** Escaped newlines *)

Lemma prefix_esc_cons2 c d s :
  String.prefix Str.escaped_newline (String c (String d s)) = is_esc c d.
Proof.
  unfold is_esc, Str.escaped_newline. cbn [String.prefix].
  destruct (ascii_dec Str.backslash c) as [<-|Hc].
  - rewrite Ascii.eqb_refl.
    destruct (ascii_dec Str.letter_n d) as [<-|Hd].
    + rewrite Ascii.eqb_refl. by destruct s.
    + symmetry. apply Ascii.eqb_neq. congruence.
  - symmetry. apply andb_false_intro1, Ascii.eqb_neq. congruence.
Qed.

Lemma prefix_esc_cons1 c :
  String.prefix Str.escaped_newline (String c "") = false.
Proof.
  unfold Str.escaped_newline. cbn [String.prefix].
  by destruct (ascii_dec Str.backslash c).
Qed.

Lemma unescape_nil : unescape "" = "".
Proof. reflexivity. Qed.

Lemma unescape_single c : unescape (String c "") = String c "".
Proof.
  unfold unescape, Str.replace. cbn [Str.replace_from].
  by rewrite prefix_esc_cons1.
Qed.

Lemma unescape_esc c d s :
  is_esc c d = true ->
  unescape (String c (String d s)) = String Str.LF (unescape s).
Proof.
  intros H. unfold unescape, Str.replace. cbn [Str.replace_from].
  by rewrite prefix_esc_cons2, H.
Qed.

Lemma unescape_other c d s :
  is_esc c d = false ->
  unescape (String c (String d s)) = String c (unescape (String d s)).
Proof.
  intros H. unfold unescape, Str.replace.
  change (Str.replace_from Str.escaped_newline Str.newline 0
            (String c (String d s)))
    with (if String.prefix Str.escaped_newline (String c (String d s))
          then Str.newline
               +:+ Str.replace_from Str.escaped_newline Str.newline
                     (String.length Str.escaped_newline - 1) (String d s)
          else String c (Str.replace_from Str.escaped_newline Str.newline 0
                           (String d s))).
  by rewrite prefix_esc_cons2, H.
Qed.

(** Every occurrence is converted: the conversion of a string around an
    escaped newline is the conversion of its two sides around a line feed. *)
Lemma unescape_app a b :
  unescape (a +:+ Str.escaped_newline +:+ b)
  = unescape a +:+ Str.newline +:+ unescape b.
Proof.
  assert (forall b, Str.escaped_newline +:+ b
                    = String Str.backslash (String Str.letter_n b)) as Hesc
    by done.
  assert (is_esc Str.backslash Str.letter_n = true) as Hbn by done.
  enough (unescape (a +:+ Str.escaped_newline +:+ b)
          = unescape a +:+ Str.newline +:+ unescape b
          /\ forall c, unescape (String c a +:+ Str.escaped_newline +:+ b)
                       = unescape (String c a) +:+ Str.newline +:+ unescape b)
    as [H _] by exact H.
  induction a as [|d a [IH1 IH2]].
  - split.
    + by rewrite str_app_nil_l, Hesc, unescape_esc.
    + intros c. rewrite str_app_cons, str_app_nil_l, Hesc.
      rewrite unescape_other, unescape_esc, unescape_single by
        (try done; unfold is_esc;
         apply andb_false_intro2; by vm_compute).
      done.
  - split; [apply IH2|]. intros c. rewrite !str_app_cons.
    destruct (is_esc c d) eqn:Hcd.
    + rewrite !unescape_esc by done. by rewrite IH1.
    + rewrite !unescape_other by done.
      rewrite <- str_app_cons, IH2. done.
Qed.

Lemma starts_n_unescape s : starts_n s = false -> starts_n (unescape s) = false.
Proof.
  destruct s as [|c [|d s]]; [done|by rewrite unescape_single|].
  intros Hc. destruct (is_esc c d) eqn:Hcd.
  - by rewrite unescape_esc.
  - by rewrite unescape_other.
Qed.

Lemma prefix_esc_starts_n c s :
  String.prefix Str.escaped_newline (String c s) = true ->
  Ascii.eqb c Str.backslash = true /\ starts_n s = true.
Proof.
  destruct s as [|d s]; [by rewrite prefix_esc_cons1|].
  rewrite prefix_esc_cons2. unfold is_esc. simpl.
  by intros [? ?]%andb_true_iff.
Qed.

(** No escaped newline is left in a converted string. *)
Lemma unescape_no_escape s :
  Str.contains Str.escaped_newline (unescape s) = false.
Proof.
  enough (Str.contains Str.escaped_newline (unescape s) = false
          /\ forall c, Str.contains Str.escaped_newline (unescape (String c s))
                       = false) as [H _] by exact H.
  induction s as [|d s [IH1 IH2]].
  - split; [done|]. intros c. rewrite unescape_single.
    cbn [Str.contains]. by rewrite prefix_esc_cons1.
  - split; [apply IH2|]. intros c. destruct (is_esc c d) eqn:Hcd.
    + rewrite unescape_esc by done. cbn [Str.contains]. rewrite IH1.
      destruct (String.prefix Str.escaped_newline
                  (String Str.LF (unescape s))) eqn:Hp; [|done].
      by apply prefix_esc_starts_n in Hp as [? _].
    + rewrite unescape_other by done. cbn [Str.contains]. rewrite IH2.
      destruct (String.prefix Str.escaped_newline
                  (String c (unescape (String d s)))) eqn:Hp; [|done].
      apply prefix_esc_starts_n in Hp as [Hc Hn].
      rewrite starts_n_unescape in Hn; [done|].
      simpl. unfold is_esc in Hcd. rewrite Hc in Hcd. done.
Qed.

(** C9.  [PromptConfig.from_args] converts every occurrence of the two
    characters backslash, n to a line feed in each of its five fields: a
    field is the conversion of its argument, the conversion turns the
    escaped newline between any two strings into a line feed and leaves no
    escaped newline behind.  The prompt assembled under that configuration is
    made of the converted prefixes and separators, so the line feed stands in
    the output wherever the separator is used; a prompt of one example or
    more ends with the converted [inter_example_sep]. *)
Theorem from_args_unescapes_newlines args :
  (question_prefix (from_args args) = unescape (args_question_prefix args)
   /\ answer_prefix (from_args args) = unescape (args_answer_prefix args)
   /\ final_answer_prefix (from_args args)
      = unescape (args_final_answer_prefix args)
   /\ intra_example_sep (from_args args) = unescape (args_intra_example_sep args)
   /\ inter_example_sep (from_args args) = unescape (args_inter_example_sep args))
  /\ (forall a b,
        unescape (a +:+ Str.escaped_newline +:+ b)
        = unescape a +:+ Str.newline +:+ unescape b)
  /\ (forall s, Str.contains Str.escaped_newline (unescape s) = false)
  /\ (forall rng fuel pool num seed cot selected,
        select_examples rng fuel pool num seed = Ok selected ->
        thoughts_present cot selected ->
        PromptLib.make_prompt rng fuel (ExampleList pool) (from_args args)
          num seed cot
        = Ok (Spec.assemble (from_args args) cot selected)
        /\ (selected <> [] ->
            Str.endswith (Spec.assemble (from_args args) cot selected)
              (unescape (args_inter_example_sep args)) = true)).
Proof.
  split_and!; try done.
  - apply unescape_app.
  - apply unescape_no_escape.
  - intros rng fuel pool num seed cot selected Hsel Hth.
    rewrite make_prompt_unfold, Hsel. simpl.
    rewrite (format_loop_assemble _ cot selected "" Hth), str_app_nil_l.
    split; [done|]. apply (assemble_endswith (from_args args)).
Qed.

Lemma from_args_unescapes_newlines_witness :
  select_examples counter_rng 0 [example_2plus2] 1 0 = Ok [example_2plus2]
  /\ thoughts_present true [example_2plus2]
  /\ from_args demo_args = PromptConfig_default
  /\ PromptLib.make_prompt counter_rng 0 (ExampleList [example_2plus2])
       (from_args demo_args) 1 0 true
     = Ok (Spec.assemble (from_args demo_args) true [example_2plus2]).
Proof.
  assert (select_examples counter_rng 0 [example_2plus2] 1 0
          = Ok [example_2plus2]) as Hsel by (by vm_compute).
  assert (thoughts_present true [example_2plus2]) as Hth.
  { intros _. repeat constructor. by eexists. }
  split_and!; [exact Hsel|exact Hth|by vm_compute|].
  destruct (from_args_unescapes_newlines demo_args) as (_ & _ & _ & H).
  exact (proj1 (H counter_rng 0 [example_2plus2] 1%Z 0%Z true [example_2plus2]
                  Hsel Hth)).
Defined.

(** C10.  [PromptConfig.from_dict] converts nothing: a configuration built
    from a dictionary holds, under each key of the dictionary, the value
    given, as the constructor of the dataclass stores its arguments as they
    are; an escaped newline given this way stays the two characters, where
    [from_args] turns it into a line feed. *)
Theorem from_dict_stores_verbatim config_dict c :
  PromptLib.from_dict config_dict = Ok c ->
  (forall name v,
     config_dict !! name = Some v -> PromptLib.get_field name c = Some v)
  /\ (forall q a f i e,
        question_prefix (mkPromptConfig q a f i e) = q
        /\ answer_prefix (mkPromptConfig q a f i e) = a
        /\ final_answer_prefix (mkPromptConfig q a f i e) = f
        /\ intra_example_sep (mkPromptConfig q a f i e) = i
        /\ inter_example_sep (mkPromptConfig q a f i e) = e)
  /\ (forall v,
        intra_example_sep <$> PromptLib.from_dict {[ "intra_example_sep" := v ]}
        = Ok v)
  /\ intra_example_sep (from_args demo_args) = Str.newline
  /\ args_intra_example_sep demo_args = Str.escaped_newline.
Proof.
  intros Hd. split_and!; [|done|by vm_compute|done|done].
  unfold PromptLib.from_dict in Hd. case_decide as Hdom; [|done].
  injection Hd as <-. intros name v Hv.
  assert (name ∈ dom config_dict) as Hin by (apply elem_of_dom; eauto).
  apply Hdom in Hin. rewrite elem_of_list_to_set in Hin.
  unfold PromptLib.field_names in Hin.
  repeat (apply elem_of_cons in Hin as [->|Hin]);
    [by (unfold PromptLib.get_field; simpl; rewrite Hv)..|].
  by apply elem_of_nil in Hin.
Qed.

Lemma from_dict_stores_verbatim_witness :
  PromptLib.from_dict {[ "intra_example_sep" := Str.escaped_newline ]}
  = Ok {| question_prefix := "Q: ";
          answer_prefix := "A: ";
          final_answer_prefix := "The answer is ";
          intra_example_sep := Str.escaped_newline;
          inter_example_sep := Str.newline +:+ Str.newline |}
  /\ PromptLib.get_field "intra_example_sep"
       {| question_prefix := "Q: ";
          answer_prefix := "A: ";
          final_answer_prefix := "The answer is ";
          intra_example_sep := Str.escaped_newline;
          inter_example_sep := Str.newline +:+ Str.newline |}
     = Some Str.escaped_newline.
Proof.
  assert (PromptLib.from_dict {[ "intra_example_sep" := Str.escaped_newline ]}
          = Ok {| question_prefix := "Q: ";
                  answer_prefix := "A: ";
                  final_answer_prefix := "The answer is ";
                  intra_example_sep := Str.escaped_newline;
                  inter_example_sep := Str.newline +:+ Str.newline |}) as Hd
    by (by vm_compute).
  split; [exact Hd|].
  refine (proj1 (from_dict_stores_verbatim _ _ Hd) "intra_example_sep"
            Str.escaped_newline _).
  by vm_compute.
Defined.

(** * Further properties of the code *)

(** ** The selection *)

Section SamplerMaps.
Context (rng : Generator).

Lemma sample_set_fmap {A B} (f : A -> B) fuel todo n g selected
    (population result : list A) :
  PyRandom.sample_set rng fuel todo n g selected (f <$> population) (f <$> result)
  = fmap (M:=list) f
      <$> PyRandom.sample_set rng fuel todo n g selected population result.
Proof.
  revert g selected result.
  induction todo as [|todo IH]; intros g selected result; simpl; [done|].
  destruct (PyRandom.draw_fresh rng fuel n selected g) as [[j g']| |];
    simpl; [|done|done].
  rewrite list_lookup_fmap.
  destruct (population !! j) as [x|]; simpl; [|done].
  rewrite <- IH. by rewrite fmap_app.
Qed.

(** The sampler moves the elements of the population and never looks into
    them. *)
Lemma sample_fmap {A B} (f : A -> B) fuel g (population : list A) k :
  PyRandom.sample rng fuel g (f <$> population) k
  = fmap (M:=list) f <$> PyRandom.sample rng fuel g population k.
Proof.
  unfold PyRandom.sample. rewrite length_fmap.
  case_decide; [|done]. case_decide.
  - apply (sample_pool_fmap rng f _ _ _ _ population []).
  - apply (sample_set_fmap f _ _ _ _ _ population []).
Qed.

Lemma sample_zero {A} fuel g (population : list A) :
  PyRandom.sample rng fuel g population 0 = Ok [].
Proof.
  unfold PyRandom.sample. rewrite decide_True by lia. simpl.
  by case_decide.
Qed.

Lemma sample_negative {A} fuel g (population : list A) k :
  (k < 0)%Z -> PyRandom.sample rng fuel g population k = Raise sample_error.
Proof. intros Hk. unfold PyRandom.sample. by rewrite decide_False by lia. Qed.

End SamplerMaps.

Lemma setsize_at_least_21 k : 21 <= PyRandom.setsize k.
Proof. unfold PyRandom.setsize. case_decide; lia. Qed.

Lemma at_positions_submseteq {A} (population : list A) idxs selected :
  NoDup idxs -> at_positions population idxs selected ->
  selected ⊆+ population.
Proof.
  intros Hnd Hat.
  assert (population = [] \/ exists d : A, True) as [->|[d _]].
  { destruct population; eauto. }
  { destruct Hat as [|i x idxs selected Hi _]; [done|].
    by rewrite lookup_nil in Hi. }
  set (f := fun i => default d (population !! i)).
  assert (selected = f <$> idxs) as ->.
  { induction Hat as [|i x idxs selected Hi _ IH]; [done|].
    simpl. unfold f at 1. rewrite Hi. simpl. f_equal.
    apply IH. by inversion Hnd. }
  assert (population = f <$> seq 0 (length population)) as Hpop.
  { apply list_eq. intros i. rewrite list_lookup_fmap.
    destruct (decide (i < length population)) as [Hi|Hi].
    - rewrite lookup_seq_lt by done. simpl. unfold f.
      destruct (lookup_lt_is_Some_2 population i Hi) as [x ->]. done.
    - rewrite lookup_seq_ge by lia. simpl. apply lookup_ge_None. lia. }
  assert (f <$> idxs ⊆+ f <$> seq 0 (length population)) as Hsub;
    [|by rewrite <- Hpop in Hsub].
  apply fmap_submseteq, NoDup_submseteq; [done|].
  intros i Hi. apply elem_of_seq. split; [lia|]. simpl.
  apply list_elem_of_lookup in Hi as [j Hj].
  destruct (Forall2_lookup_l _ _ _ _ _ Hat Hj) as (x & _ & Hx).
  by apply lookup_lt_Some in Hx.
Qed.

(** X1.  A count of zero gives the empty prompt, for every pool, seed and
    generator, and so does the count [-1] on an empty pool: nothing is
    drawn and nothing is formatted. *)
Theorem make_prompt_zero_examples rng fuel pool c seed cot :
  PromptLib.make_prompt rng fuel (ExampleList pool) c 0 seed cot = Ok ""
  /\ Prompts.format_prompt rng fuel (ExampleList pool) c 0 seed cot = Ok ""
  /\ PromptLib.make_prompt rng fuel (ExampleList []) c (-1) seed cot = Ok ""
  /\ Prompts.format_prompt rng fuel (ExampleList []) c (-1) seed cot = Ok "".
Proof.
  format_as_make. rewrite !make_prompt_unfold. unfold select_examples.
  rewrite decide_False by lia. rewrite decide_True by done. simpl length.
  rewrite !sample_zero. done.
Qed.

(** X2.  A negative count other than [-1] is not a request for the whole
    pool: it raises the [ValueError] of the sampler, like a count that is too
    large. *)
Theorem make_prompt_negative_count rng fuel pool c count seed cot :
  (count < -1)%Z ->
  PromptLib.make_prompt rng fuel (ExampleList pool) c count seed cot
  = Raise sample_error
  /\ Prompts.format_prompt rng fuel (ExampleList pool) c count seed cot
     = Raise sample_error.
Proof.
  intros Hc. format_as_make. rewrite make_prompt_unfold. unfold select_examples.
  rewrite decide_False by lia. rewrite sample_negative by lia. done.
Qed.

Lemma make_prompt_negative_count_witness :
  (-2 < -1)%Z
  /\ PromptLib.make_prompt counter_rng 0 (ExampleList (numbered_pool 3))
       PromptConfig_default (-2) 0 false
     = Raise sample_error.
Proof.
  assert (-2 < -1)%Z as H by lia.
  split; [exact H|].
  exact (proj1 (make_prompt_negative_count counter_rng 0 (numbered_pool 3)
                  PromptConfig_default (-2) 0 false H)).
Defined.

(** X3.  A selection that is returned has exactly as many examples as were
    asked for (the size of the pool for [-1]), and it is taken from the pool
    without repetition: no example is selected more often than it occurs in
    the pool. *)
Theorem select_examples_count rng fuel pool count seed selected :
  lawful rng ->
  select_examples rng fuel pool count seed = Ok selected ->
  length selected
  = (if decide (count = (-1)%Z) then length pool else Z.to_nat count)
  /\ length selected <= length pool
  /\ selected ⊆+ pool
  /\ (forall e, e ∈ selected -> e ∈ pool).
Proof.
  intros Hrng Hsel. unfold select_examples in Hsel.
  pose proof Hsel as Hs.
  apply (sample_positions rng) in Hs as (idxs & Hnd & Hlen & Hat); [|done].
  assert (selected ⊆+ pool) as Hsub by by eapply at_positions_submseteq.
  assert (length selected = length idxs) as Hl
    by (symmetry; by eapply Forall2_length).
  split_and!.
  - rewrite Hl, Hlen. case_decide; [|done]. by rewrite Nat2Z.id.
  - by apply submseteq_length.
  - done.
  - intros e He. by eapply elem_of_submseteq.
Qed.

Lemma select_examples_count_witness :
  lawful counter_rng
  /\ select_examples counter_rng 0 (numbered_pool 3) 2 4
     = Ok (drop 1 (numbered_pool 3))
  /\ length (drop 1 (numbered_pool 3)) = 2
  /\ drop 1 (numbered_pool 3) ⊆+ numbered_pool 3.
Proof.
  assert (select_examples counter_rng 0 (numbered_pool 3) 2 4
          = Ok (drop 1 (numbered_pool 3))) as Hsel by (by vm_compute).
  destruct (select_examples_count counter_rng 0 (numbered_pool 3) 2 4 _
              counter_rng_lawful Hsel) as (Hlen & _ & Hsub & _).
  split_and!; [exact counter_rng_lawful|exact Hsel|exact Hlen|exact Hsub].
Defined.

(** X4.  From a pool of at most 21 examples every count between 0 and the
    size of the pool is served: the selection is returned with any fuel, no
    position is out of range and the rejection loop is never entered. *)
Theorem select_examples_small_pool rng fuel pool count seed :
  lawful rng ->
  length pool <= 21 ->
  (0 <= count <= Z.of_nat (length pool))%Z ->
  exists selected,
    select_examples rng fuel pool count seed = Ok selected
    /\ select_examples rng 0 pool count seed = Ok selected
    /\ length selected = Z.to_nat count.
Proof.
  intros Hrng Hn Hc.
  destruct (sample_pool_positions rng (Z.to_nat count) (Random rng seed) pool
              Hrng ltac:(lia)) as (idxs & r & Hr & _ & Hlen & Hat & _).
  assert (forall fuel', select_examples rng fuel' pool count seed = Ok r)
    as Hall.
  { intros fuel'. unfold select_examples.
    rewrite decide_False by lia. unfold PyRandom.sample.
    rewrite decide_True by done.
    pose proof (setsize_at_least_21 (Z.to_nat count)).
    by rewrite decide_True by lia. }
  exists r. split_and!; [apply Hall|apply Hall|].
  rewrite <- Hlen. symmetry. by eapply Forall2_length.
Qed.

Lemma select_examples_small_pool_witness :
  lawful counter_rng
  /\ length (numbered_pool 3) <= 21
  /\ (0 <= 2 <= Z.of_nat (length (numbered_pool 3)))%Z
  /\ exists selected,
       select_examples counter_rng 5 (numbered_pool 3) 2 9 = Ok selected
       /\ length selected = 2.
Proof.
  assert (length (numbered_pool 3) <= 21) as Hn by (vm_compute; lia).
  assert (0 <= 2 <= Z.of_nat (length (numbered_pool 3)))%Z as Hc
    by (vm_compute; split; discriminate).
  refine (conj counter_rng_lawful (conj Hn (conj Hc _))).
  destruct (select_examples_small_pool counter_rng 5 (numbered_pool 3) 2 9
              counter_rng_lawful Hn Hc) as (selected & Hs & _ & Hl).
  exists selected. split; [exact Hs|exact Hl].
Defined.

Lemma format_loop_forget_thought c selected acc :
  format_loop c false (forget_thought <$> selected) acc
  = format_loop c false selected acc.
Proof.
  revert acc. induction selected as [|e l IH]; intros acc; simpl; [done|].
  apply IH.
Qed.

(** X5.  Without chain of thought the thoughts are never read: removing the
    thought of every example of the pool changes neither the prompt nor the
    error, for every count, seed and generator. *)
Theorem make_prompt_plain_ignores_thoughts rng fuel pool c count seed :
  PromptLib.make_prompt rng fuel (ExampleList (forget_thought <$> pool)) c
    count seed false
  = PromptLib.make_prompt rng fuel (ExampleList pool) c count seed false
  /\ Prompts.format_prompt rng fuel (ExampleList (forget_thought <$> pool)) c
       count seed false
     = Prompts.format_prompt rng fuel (ExampleList pool) c count seed false.
Proof.
  format_as_make. rewrite !make_prompt_unfold. unfold select_examples.
  rewrite length_fmap, sample_fmap.
  destruct (PyRandom.sample rng fuel (Random rng seed) pool _)
    as [selected| |]; simpl; [|done|done].
  by rewrite format_loop_forget_thought.
Qed.

(** ** The text of the prompt *)

Lemma prefix_nil s : String.prefix "" s = true.
Proof. by destruct s. Qed.

Lemma prefix_app s t : String.prefix s (s +:+ t) = true.
Proof.
  induction s as [|c s IH]; [apply prefix_nil|].
  rewrite str_app_cons. cbn [String.prefix].
  by destruct (ascii_dec c c).
Qed.

Lemma prefix_app_l sub a b :
  String.prefix sub a = true -> String.prefix sub (a +:+ b) = true.
Proof.
  revert a. induction sub as [|c sub IH]; intros a; [intros; apply prefix_nil|].
  destruct a as [|d a]; [done|]. rewrite str_app_cons. cbn [String.prefix].
  destruct (ascii_dec c d); [apply IH|done].
Qed.

Lemma contains_here sub s :
  String.prefix sub s = true -> Str.contains sub s = true.
Proof. intros H. destruct s; cbn [Str.contains]; by rewrite H. Qed.

Lemma contains_app_r sub a b :
  Str.contains sub b = true -> Str.contains sub (a +:+ b) = true.
Proof.
  intros H. induction a as [|c a IH]; [done|].
  rewrite str_app_cons. cbn [Str.contains]. rewrite IH. apply orb_true_r.
Qed.

Lemma contains_app_l sub a b :
  Str.contains sub a = true -> Str.contains sub (a +:+ b) = true.
Proof.
  induction a as [|c a IH].
  - cbn [Str.contains]. rewrite orb_false_r. intros H.
    apply contains_here. by apply (prefix_app_l sub "" b).
  - cbn [Str.contains]. intros [H|H]%orb_true_iff.
    + apply contains_here. by apply prefix_app_l.
    + rewrite str_app_cons. cbn [Str.contains]. rewrite (IH H).
      apply orb_true_r.
Qed.

(** [sub in a + sub + b] *)
Lemma contains_mid sub a b : Str.contains sub (a +:+ sub +:+ b) = true.
Proof. apply contains_app_r, contains_here, prefix_app. Qed.

Lemma assemble_contains c cot selected e sub :
  e ∈ selected ->
  Str.contains sub (Spec.example_block c cot e) = true ->
  Str.contains sub (Spec.assemble c cot selected) = true.
Proof.
  intros (l1 & l2 & ->)%list_elem_of_split Hsub. unfold Spec.assemble.
  rewrite fmap_app, concat_app. simpl.
  by apply contains_app_r, contains_app_l.
Qed.

(** [sub] is one of the summands of the string of the goal. *)
Ltac find_summand :=
  rewrite ?str_app_assoc;
  repeat first [ apply contains_here, prefix_app | apply contains_app_r ].

Lemma block_contains_question c cot e :
  Str.contains (question e) (Spec.example_block c cot e) = true.
Proof. unfold Spec.example_block. by find_summand. Qed.

Lemma block_contains_answer c cot e :
  Str.contains (answer e) (Spec.example_block c cot e) = true.
Proof. unfold Spec.example_block. destruct cot; by find_summand. Qed.

Lemma block_contains_thought c e th :
  thought e = Some th ->
  Str.contains th (Spec.example_block c true e) = true.
Proof.
  intros Hth. unfold Spec.example_block. rewrite Hth. simpl. by find_summand.
Qed.

(** X6.  The question and the answer of every selected example stand in the
    prompt, and with chain of thought its thought does too. *)
Theorem make_prompt_contains_examples rng fuel pool c count seed cot selected :
  select_examples rng fuel pool count seed = Ok selected ->
  thoughts_present cot selected ->
  exists out,
    PromptLib.make_prompt rng fuel (ExampleList pool) c count seed cot = Ok out
    /\ Prompts.format_prompt rng fuel (ExampleList pool) c count seed cot = Ok out
    /\ forall e, e ∈ selected ->
         Str.contains (question e) out = true
         /\ Str.contains (answer e) out = true
         /\ (forall th, cot = true -> thought e = Some th ->
               Str.contains th out = true).
Proof.
  intros Hsel Hth. exists (Spec.assemble c cot selected).
  format_as_make. rewrite make_prompt_unfold, Hsel. simpl.
  rewrite (format_loop_assemble c cot selected "" Hth), str_app_nil_l.
  split_and!; [done|done|]. intros e He. split_and!.
  - eapply assemble_contains; [done|apply block_contains_question].
  - eapply assemble_contains; [done|apply block_contains_answer].
  - intros th -> Hsome.
    eapply assemble_contains; [done|by apply block_contains_thought].
Qed.

Lemma make_prompt_contains_examples_witness :
  select_examples counter_rng 0 [example_2plus2] 1 0 = Ok [example_2plus2]
  /\ thoughts_present true [example_2plus2]
  /\ exists out,
       PromptLib.make_prompt counter_rng 0 (ExampleList [example_2plus2])
         PromptConfig_default 1 0 true = Ok out
       /\ Str.contains "2+2?" out = true
       /\ Str.contains "add" out = true.
Proof.
  assert (select_examples counter_rng 0 [example_2plus2] 1 0
          = Ok [example_2plus2]) as Hsel by (by vm_compute).
  assert (thoughts_present true [example_2plus2]) as Hth.
  { intros _. repeat constructor. by eexists. }
  split_and!; [exact Hsel|exact Hth|].
  destruct (make_prompt_contains_examples counter_rng 0 [example_2plus2]
              PromptConfig_default 1 0 true _ Hsel Hth) as (out & Ho & _ & Hin).
  exists out.
  destruct (Hin example_2plus2 ltac:(by apply list_elem_of_here))
    as (Hq & _ & Ht).
  split_and!; [exact Ho|exact Hq|exact (Ht "add" eq_refl eq_refl)].
Defined.

Lemma format_loop_missing_thought c selected acc :
  Exists (fun e => thought e = None) selected ->
  format_loop c true selected acc = Raise TypeError.
Proof.
  revert acc. induction selected as [|e l IH]; intros acc Hex.
  - by apply Exists_nil in Hex.
  - simpl. unfold format_example. destruct (thought e) as [th|] eqn:Hth.
    + simpl. apply IH. apply Exists_cons in Hex as [Hex|Hex]; [congruence|done].
    + done.
Qed.

(** X7.  With chain of thought and the count [-1], [make_prompt] raises
    [TypeError] exactly when an example of the pool has no thought: every
    example is selected, and the absent thought cannot be appended. *)
Theorem make_prompt_cot_needs_thoughts rng fuel pool c seed :
  lawful rng ->
  PromptLib.make_prompt rng fuel (ExampleList pool) c (-1) seed true
  = Raise TypeError
  <-> exists e, e ∈ pool /\ thought e = None.
Proof.
  intros Hrng.
  destruct (sample_all rng fuel (Random rng seed) pool Hrng)
    as (idxs & selected & Hs & _ & Hperm & _).
  assert (select_examples rng fuel pool (-1) seed = Ok selected) as Hsel.
  { unfold select_examples. by rewrite decide_True. }
  rewrite make_prompt_unfold, Hsel. simpl.
  rewrite <- Exists_exists, <- Hperm.
  split; [|apply format_loop_missing_thought].
  intros Hraise.
  destruct (decide (Exists (fun e => thought e = None) selected))
    as [Hex|Hnex]; [done|].
  apply not_Exists_Forall in Hnex; [|apply _].
  rewrite format_loop_assemble in Hraise; [done|].
  intros _. eapply Forall_impl; [exact Hnex|].
  intros e He. simpl in He. by destruct (thought e); [eexists|].
Qed.

Lemma make_prompt_cot_needs_thoughts_witness :
  lawful counter_rng
  /\ PromptLib.make_prompt counter_rng 0
       (ExampleList [example_2plus2; example_no_thought]) PromptConfig_default
       (-1) 0 true
     = Raise TypeError.
Proof.
  split; [exact counter_rng_lawful|].
  apply (proj2 (make_prompt_cot_needs_thoughts counter_rng 0
                  [example_2plus2; example_no_thought] PromptConfig_default 0
                  counter_rng_lawful)).
  exists example_no_thought. split; [|reflexivity].
  apply list_elem_of_further, list_elem_of_here.
Defined.

Lemma str_length_app a b :
  String.length (a +:+ b) = String.length a + String.length b.
Proof. induction a as [|c a IH]; [done|]. rewrite str_app_cons. simpl. lia. Qed.

Lemma concat_length l :
  String.length (Str.concat l) = sum_list (String.length <$> l).
Proof.
  induction l as [|s l IH]; [done|]. simpl. by rewrite str_length_app, IH.
Qed.

(** X8.  With the count [-1] the length of the prompt does not depend on the
    seed, the generator or the order drawn: it is the total length of the
    blocks of the pool. *)
Theorem make_prompt_all_length rng fuel pool c seed cot :
  lawful rng ->
  thoughts_present cot pool ->
  exists out,
    PromptLib.make_prompt rng fuel (ExampleList pool) c (-1) seed cot = Ok out
    /\ Prompts.format_prompt rng fuel (ExampleList pool) c (-1) seed cot = Ok out
    /\ String.length out = blocks_length c cot pool.
Proof.
  intros Hrng Hth.
  destruct (sample_all rng fuel (Random rng seed) pool Hrng)
    as (idxs & selected & Hs & _ & Hperm & _).
  assert (select_examples rng fuel pool (-1) seed = Ok selected) as Hsel.
  { unfold select_examples. by rewrite decide_True. }
  assert (thoughts_present cot selected) as Hth'.
  { intros Hc. rewrite Hperm. by apply Hth. }
  exists (Spec.assemble c cot selected).
  format_as_make. rewrite make_prompt_unfold, Hsel. simpl.
  rewrite (format_loop_assemble c cot selected "" Hth'), str_app_nil_l.
  split_and!; [done|done|].
  unfold Spec.assemble, blocks_length. rewrite concat_length, <- list_fmap_compose.
  by rewrite Hperm.
Qed.

Lemma make_prompt_all_length_witness :
  lawful counter_rng
  /\ thoughts_present true (numbered_pool 3)
  /\ exists out,
       PromptLib.make_prompt counter_rng 0 (ExampleList (numbered_pool 3))
         PromptConfig_default (-1) 11 true = Ok out
       /\ String.length out = blocks_length PromptConfig_default true
                                (numbered_pool 3).
Proof.
  assert (thoughts_present true (numbered_pool 3)) as Hth.
  { intros _. vm_compute. repeat constructor; by eexists. }
  split_and!; [exact counter_rng_lawful|exact Hth|].
  destruct (make_prompt_all_length counter_rng 0 (numbered_pool 3)
              PromptConfig_default 11 true counter_rng_lawful Hth)
    as (out & Ho & _ & Hl).
  exists out. split; [exact Ho|exact Hl].
Defined.

(** ** The task file: errors and edges *)

Lemma parse_lines_ok env lines task_rows :
  parse_lines env lines = Ok task_rows
  <-> Forall2 (fun line row => json_loads env line = Some row) lines task_rows.
Proof.
  revert task_rows. induction lines as [|line lines IH]; intros task_rows; simpl.
  - split; [by intros [= <-]; constructor|]. by inversion 1.
  - destruct (json_loads env line) as [row|] eqn:Hrow.
    + destruct (parse_lines env lines) as [r| |] eqn:Hr; simpl.
      * split.
        -- intros [= <-]. constructor; [done|]. by apply IH.
        -- inversion 1 as [|? row' ? r' Hrow' Hrest]; simplify_eq.
           apply IH in Hrest. by simplify_eq.
      * split; [done|]. inversion 1 as [|? ? ? r' _ Hrest]; simplify_eq.
        by apply IH in Hrest.
      * split; [done|]. inversion 1 as [|? ? ? r' _ Hrest]; simplify_eq.
        by apply IH in Hrest.
    + split; [done|]. inversion 1; simplify_eq.
Qed.

Lemma parse_lines_bad env lines :
  Exists (fun line => json_loads env line = None) lines ->
  parse_lines env lines = Raise JSONDecodeError.
Proof.
  induction lines as [|line lines IH]; intros Hex.
  - by apply Exists_nil in Hex.
  - simpl. destruct (json_loads env line) as [row|] eqn:Hrow; [|done].
    apply Exists_cons in Hex as [Hex|Hex]; [congruence|].
    by rewrite (IH Hex).
Qed.

Lemma build_table_inv prefix c model task_rows table :
  build_table prefix c model task_rows = Ok table ->
  task_rows <> []
  /\ table
     = {| columns := ["question"; "answer"];
          rows :=
            (fun row =>
               [ prefix +:+ question_prefix c +:+ input row
                 +:+ intra_example_sep c +:+ query_answer_prefix c model;
                 target row ]) <$> task_rows |}.
Proof. destruct task_rows; [done|]. by intros [= <-]. Qed.

(** What a returned table comes from. *)
Lemma make_task_file_inv rng env fuel tc table :
  PromptLib.make_task_file_from_config rng env fuel tc = Ok table ->
  exists lines task_rows entry prefix,
    files env !! task_file_path (PromptLib.task_id tc) = Some lines
    /\ parse_lines env lines = Ok task_rows
    /\ task_id_to_prompt env !! PromptLib.task_id tc = Some entry
    /\ PromptLib.make_prompt rng fuel entry (PromptLib.prompt_config tc)
         (PromptLib.num_prompt_examples tc) (PromptLib.seed tc)
         (PromptLib.is_cot_task tc) = Ok prefix
    /\ build_table prefix (PromptLib.prompt_config tc)
         (PromptLib.model_name tc) task_rows = Ok table.
Proof.
  unfold PromptLib.make_task_file_from_config, open_file, registry_lookup.
  destruct (files env !! _) as [lines|] eqn:Hf; simpl; [|done].
  destruct (parse_lines env lines) as [task_rows| |] eqn:Hp; simpl;
    [|done|done].
  destruct (task_id_to_prompt env !! _) as [entry|] eqn:Hreg; simpl; [|done].
  intros H. exists lines, task_rows, entry.
  destruct entry as [s|l].
  - exists s. by split_and!.
  - destruct (PromptLib.make_prompt rng fuel (ExampleList l) _ _ _ _)
      as [prefix| |] eqn:Hprompt; simpl in H; [|done|done].
    exists prefix. by split_and!.
Qed.

Lemma str_app_eq_nil a b : a +:+ b = "" -> b = "".
Proof. by destruct a. Qed.

Lemma ends_with_space_app a b :
  b <> "" -> ends_with_space (a +:+ b) = ends_with_space b.
Proof.
  intros Hb. induction a as [|c a IH]; [done|].
  rewrite str_app_cons. cbn [ends_with_space].
  destruct (a +:+ b) as [|d r] eqn:Hab; [|done].
  by apply str_app_eq_nil in Hab.
Qed.

Lemma rstrip_no_trailing_space s : ends_with_space (Str.rstrip s) = false.
Proof.
  induction s as [|c s IH]; [done|]. cbn [Str.rstrip].
  destruct (Str.isspace c) eqn:Hc; simpl.
  - destruct (Str.rstrip s) as [|d r]; [done|]. exact IH.
  - destruct (Str.rstrip s) as [|d r]; [by simpl|]. exact IH.
Qed.

(** X9.  For a model whose name does not contain ["code"], no question of
    the table ends in white space, provided that the answer prefix is not
    white space only: the prompt ends where the trimmed answer prefix
    ends. *)
Theorem questions_end_without_space rng env fuel tc table :
  Str.contains "code" (PromptLib.model_name tc) = false ->
  Str.strip (answer_prefix (PromptLib.prompt_config tc)) <> "" ->
  PromptLib.make_task_file_from_config rng env fuel tc = Ok table ->
  forall cells, cells ∈ rows table ->
    exists q a, cells = [q; a] /\ ends_with_space q = false.
Proof.
  intros Hmodel Hne (lines & task_rows & entry & prefix & _ & _ & _ & _ & Hb)
    %make_task_file_inv cells Hin.
  apply build_table_inv in Hb as [_ ->]. cbn [rows] in Hin.
  apply list_elem_of_fmap in Hin as (row & -> & _).
  eexists _, _. split; [reflexivity|].
  assert (query_answer_prefix (PromptLib.prompt_config tc)
            (PromptLib.model_name tc)
          = Str.strip (answer_prefix (PromptLib.prompt_config tc))) as ->.
  { unfold query_answer_prefix. by rewrite Hmodel. }
  rewrite <- !str_app_assoc. rewrite ends_with_space_app by done.
  apply rstrip_no_trailing_space.
Qed.

Lemma questions_end_without_space_witness :
  Str.contains "code" (PromptLib.model_name demo_task) = false
  /\ Str.strip (answer_prefix (PromptLib.prompt_config demo_task)) <> ""
  /\ exists table,
       PromptLib.make_task_file_from_config counter_rng demo_env 0 demo_task
       = Ok table
       /\ forall cells, cells ∈ rows table ->
            exists q a, cells = [q; a] /\ ends_with_space q = false.
Proof.
  assert (Str.contains "code" (PromptLib.model_name demo_task) = false) as Hm
    by (by vm_compute).
  assert (Str.strip (answer_prefix (PromptLib.prompt_config demo_task)) <> "")
    as Hne by (vm_compute; discriminate).
  split_and!; [exact Hm|exact Hne|].
  destruct (PromptLib.make_task_file_from_config counter_rng demo_env 0
              demo_task) as [table| |] eqn:Ht;
    [|vm_compute in Ht; discriminate Ht..].
  exists table. split; [reflexivity|].
  exact (questions_end_without_space counter_rng demo_env 0 demo_task table
           Hm Hne Ht).
Defined.

(** X10.  A table that is returned has one row per line of the task file,
    in the order of the file, and the answer of a row is the target of the
    record of its line, unchanged. *)
Theorem table_rows_match_lines rng env fuel tc table :
  PromptLib.make_task_file_from_config rng env fuel tc = Ok table ->
  exists lines,
    files env !! task_file_path (PromptLib.task_id tc) = Some lines
    /\ lines <> []
    /\ length (rows table) = length lines
    /\ forall i line, lines !! i = Some line ->
         exists row q,
           json_loads env line = Some row
           /\ rows table !! i = Some [q; target row].
Proof.
  intros (lines & task_rows & entry & prefix & Hf & Hp & _ & _ & Hb)
    %make_task_file_inv.
  apply build_table_inv in Hb as [Hne ->]. cbn [rows].
  apply parse_lines_ok in Hp.
  exists lines. split_and!; [done| | |].
  - intros ->. by inversion Hp.
  - rewrite length_fmap. symmetry. by eapply Forall2_length.
  - intros i line Hi.
    destruct (Forall2_lookup_l _ _ _ _ _ Hp Hi) as (row & Hrow & Hjson).
    eexists row, _. split; [done|]. by rewrite list_lookup_fmap, Hrow.
Qed.

Lemma table_rows_match_lines_witness :
  exists table,
    PromptLib.make_task_file_from_config counter_rng demo_env 0 demo_task
    = Ok table
    /\ length (rows table) = 2.
Proof.
  destruct (PromptLib.make_task_file_from_config counter_rng demo_env 0
              demo_task) as [table| |] eqn:Ht;
    [|vm_compute in Ht; discriminate Ht..].
  exists table. split; [reflexivity|].
  destruct (table_rows_match_lines counter_rng demo_env 0 demo_task table Ht)
    as (lines & Hf & _ & Hl & _).
  vm_compute in Hf. injection Hf as <-. exact Hl.
Defined.

(** X11.  One line of the task file that does not parse makes the call
    raise [JSONDecodeError], whatever the other lines, the registry and the
    count are: no table of the lines that do parse is returned. *)
Theorem bad_line_fails rng env fuel tc lines :
  files env !! task_file_path (PromptLib.task_id tc) = Some lines ->
  (exists line, line ∈ lines /\ json_loads env line = None) ->
  PromptLib.make_task_file_from_config rng env fuel tc = Raise JSONDecodeError.
Proof.
  intros Hf Hbad. apply Exists_exists, parse_lines_bad in Hbad.
  unfold PromptLib.make_task_file_from_config, open_file.
  rewrite Hf. simpl. by rewrite Hbad.
Qed.

Lemma bad_line_fails_witness :
  files bad_line_env !! task_file_path (PromptLib.task_id demo_task)
  = Some ["1+1?"; "oops"]
  /\ (exists line, line ∈ ["1+1?"; "oops"] /\ json_loads bad_line_env line = None)
  /\ PromptLib.make_task_file_from_config counter_rng bad_line_env 0 demo_task
     = Raise JSONDecodeError.
Proof.
  assert (files bad_line_env !! task_file_path (PromptLib.task_id demo_task)
          = Some ["1+1?"; "oops"]) as Hf by (by vm_compute).
  assert (exists line, line ∈ ["1+1?"; "oops"]
                       /\ json_loads bad_line_env line = None) as Hbad.
  { exists "oops". split; [|reflexivity].
    apply list_elem_of_further, list_elem_of_here. }
  split_and!; [exact Hf|exact Hbad|].
  exact (bad_line_fails counter_rng bad_line_env 0 demo_task _ Hf Hbad).
Defined.

(** X12.  A task file without lines gives no table: the table built from no
    record has no column [input], and the call raises [KeyError] although the
    file exists, the task is registered and the prompt was built. *)
Theorem empty_file_fails rng env fuel tc entry prefix :
  files env !! task_file_path (PromptLib.task_id tc) = Some [] ->
  task_id_to_prompt env !! PromptLib.task_id tc = Some entry ->
  PromptLib.make_prompt rng fuel entry (PromptLib.prompt_config tc)
    (PromptLib.num_prompt_examples tc) (PromptLib.seed tc)
    (PromptLib.is_cot_task tc) = Ok prefix ->
  PromptLib.make_task_file_from_config rng env fuel tc
  = Raise (KeyError "input").
Proof.
  intros Hf Hreg Hp.
  unfold PromptLib.make_task_file_from_config, open_file, registry_lookup.
  rewrite Hf. simpl. rewrite Hreg. simpl.
  destruct entry as [s|l]; [done|]. by rewrite Hp.
Qed.

Lemma empty_file_fails_witness :
  files empty_file_env !! task_file_path (PromptLib.task_id demo_task) = Some []
  /\ PromptLib.make_task_file_from_config counter_rng empty_file_env 0 demo_task
     = Raise (KeyError "input").
Proof.
  assert (files empty_file_env !! task_file_path (PromptLib.task_id demo_task)
          = Some []) as Hf by (by vm_compute).
  split; [exact Hf|].
  refine (empty_file_fails counter_rng empty_file_env 0 demo_task
            (ExampleList [example_2plus2]) (scenario_literal +:+ Str.newline)
            Hf _ _); by vm_compute.
Defined.

(** X13.  The two failures that come before the prompt: a task file that
    does not exist raises [FileNotFoundError] with the derived path, even for
    a task that is not registered; and a task that is not registered raises
    [KeyError] with its id once the file has been read, even when the file
    has no line. *)
Theorem task_file_errors_in_order rng env fuel tc :
  (files env !! task_file_path (PromptLib.task_id tc) = None ->
   PromptLib.make_task_file_from_config rng env fuel tc
   = Raise (FileNotFoundError (task_file_path (PromptLib.task_id tc))))
  /\ (forall lines task_rows,
        files env !! task_file_path (PromptLib.task_id tc) = Some lines ->
        parse_lines env lines = Ok task_rows ->
        task_id_to_prompt env !! PromptLib.task_id tc = None ->
        PromptLib.make_task_file_from_config rng env fuel tc
        = Raise (KeyError (PromptLib.task_id tc))).
Proof.
  unfold PromptLib.make_task_file_from_config, open_file, registry_lookup.
  split.
  - by intros ->.
  - intros lines task_rows -> Hp Hreg. simpl. rewrite Hp. simpl.
    by rewrite Hreg.
Qed.

Lemma task_file_errors_in_order_witness :
  files demo_env !! task_file_path (PromptLib.task_id demo_task)
  = Some ["1+1?"; "2+3?"]
  /\ task_id_to_prompt empty_file_env !! "math_cot" = None
  /\ PromptLib.make_task_file_from_config counter_rng
       {| files := ∅; json_loads := json_loads demo_env;
          task_id_to_prompt := ∅ |} 0 demo_task
     = Raise (FileNotFoundError "data/tasks/gsm.jsonl").
Proof.
  split_and!; [by vm_compute|by vm_compute|].
  refine (proj1 (task_file_errors_in_order counter_rng
                   {| files := ∅; json_loads := json_loads demo_env;
                      task_id_to_prompt := ∅ |} 0 demo_task) _).
  by vm_compute.
Defined.

(** X14.  A count above the size of the registered pool stops the whole
    call: the [ValueError] of the sampler leaves [make_task_file_from_config]
    and no table of questions without examples is returned. *)
Theorem task_file_count_too_large rng env fuel tc lines task_rows pool :
  files env !! task_file_path (PromptLib.task_id tc) = Some lines ->
  parse_lines env lines = Ok task_rows ->
  task_id_to_prompt env !! PromptLib.task_id tc = Some (ExampleList pool) ->
  (Z.of_nat (length pool) < PromptLib.num_prompt_examples tc)%Z ->
  PromptLib.make_task_file_from_config rng env fuel tc = Raise sample_error.
Proof.
  intros Hf Hp Hreg Hk.
  assert (PromptLib.make_prompt rng fuel (ExampleList pool)
            (PromptLib.prompt_config tc) (PromptLib.num_prompt_examples tc)
            (PromptLib.seed tc) (PromptLib.is_cot_task tc)
          = Raise sample_error) as Hprompt.
  { rewrite make_prompt_unfold. unfold select_examples.
    rewrite decide_False by lia. by rewrite sample_too_large. }
  unfold PromptLib.make_task_file_from_config, open_file, registry_lookup.
  rewrite Hf. simpl. rewrite Hp. simpl. rewrite Hreg.
  cbn -[PromptLib.make_prompt]. by rewrite Hprompt.
Qed.

Lemma task_file_count_too_large_witness :
  (Z.of_nat (length [example_2plus2]) < PromptLib.num_prompt_examples
                                          demo_task_other)%Z
  /\ PromptLib.make_task_file_from_config counter_rng demo_env 0
       demo_task_other
     = Raise sample_error.
Proof.
  assert (Z.of_nat (length [example_2plus2])
          < PromptLib.num_prompt_examples demo_task_other)%Z as Hk
    by (by vm_compute).
  split; [exact Hk|].
  refine (task_file_count_too_large counter_rng demo_env 0 demo_task_other
            ["1+1?"; "2+3?"]
            [ {| input := "1+1?"; target := "=1+1?" |};
              {| input := "2+3?"; target := "=2+3?" |} ]
            [example_2plus2] _ _ _ Hk); by vm_compute.
Defined.

(** X15.  For a task registered as a literal prompt the table does not
    depend on the count, the seed, the chain-of-thought flag or the
    generator: two configurations with the same task id, model name and
    prompt configuration give the same result, also when the count of one
    of them is larger than any pool. *)
Theorem task_file_literal_prompt rng1 rng2 env fuel1 fuel2 tc1 tc2 s :
  task_id_to_prompt env !! PromptLib.task_id tc1 = Some (PromptStr s) ->
  PromptLib.task_id tc2 = PromptLib.task_id tc1 ->
  PromptLib.model_name tc2 = PromptLib.model_name tc1 ->
  PromptLib.prompt_config tc2 = PromptLib.prompt_config tc1 ->
  PromptLib.make_task_file_from_config rng1 env fuel1 tc1
  = PromptLib.make_task_file_from_config rng2 env fuel2 tc2.
Proof.
  intros Hreg Hid Hm Hc.
  unfold PromptLib.make_task_file_from_config, registry_lookup.
  rewrite Hid, Hm, Hc.
  destruct (open_file env _) as [lines| |]; simpl; [|done|done].
  destruct (parse_lines env lines) as [task_rows| |]; simpl; [|done|done].
  by rewrite Hreg.
Qed.

Lemma task_file_literal_prompt_witness :
  task_id_to_prompt literal_env !! PromptLib.task_id demo_task
  = Some (PromptStr "Solve.")
  /\ PromptLib.make_task_file_from_config counter_rng literal_env 0 demo_task
     = PromptLib.make_task_file_from_config counter_rng literal_env 3
         demo_task_other.
Proof.
  assert (task_id_to_prompt literal_env !! PromptLib.task_id demo_task
          = Some (PromptStr "Solve.")) as Hreg by (by vm_compute).
  split; [exact Hreg|].
  exact (task_file_literal_prompt counter_rng counter_rng literal_env 0 3
           demo_task demo_task_other "Solve." Hreg eq_refl eq_refl eq_refl).
Defined.

Lemma split_first_no_sep sep s :
  Str.contains (String sep "") s = false -> Str.split_first sep s = s.
Proof.
  induction s as [|c s IH]; [done|]. cbn [Str.contains String.prefix].
  intros [Hc Hs]%orb_false_iff. cbn [Str.split_first].
  destruct (ascii_dec sep c) as [->|Hne].
  - by rewrite prefix_nil in Hc.
  - rewrite (proj2 (Ascii.eqb_neq c sep)) by congruence. by rewrite IH.
Qed.

Lemma split_first_app sep a b :
  Str.contains (String sep "") a = false ->
  Str.split_first sep (a +:+ String sep b) = a.
Proof.
  induction a as [|c a IH].
  - intros _. rewrite str_app_nil_l. cbn [Str.split_first].
    by rewrite Ascii.eqb_refl.
  - cbn [Str.contains String.prefix]. intros [Hc Hs]%orb_false_iff.
    rewrite str_app_cons. cbn [Str.split_first].
    destruct (ascii_dec sep c) as [->|Hne].
    + by rewrite prefix_nil in Hc.
    + rewrite (proj2 (Ascii.eqb_neq c sep)) by congruence. by rewrite IH.
Qed.

(** X16.  The task file is chosen by the part of the task id before its
    first underscore: all task ids [name_...] read [data/tasks/name.jsonl],
    the file that the id [name] itself reads. *)
Theorem task_file_path_prefix name rest :
  Str.contains "_" name = false ->
  task_file_path (name +:+ "_" +:+ rest) = "data/tasks/" +:+ name +:+ ".jsonl"
  /\ task_file_path name = "data/tasks/" +:+ name +:+ ".jsonl".
Proof.
  intros Hname. unfold task_file_path.
  change ("_" +:+ rest) with (String "_"%char rest).
  by rewrite split_first_app, split_first_no_sep.
Qed.

Lemma task_file_path_prefix_witness :
  Str.contains "_" "gsm" = false
  /\ task_file_path "gsm_cot_v2" = "data/tasks/gsm.jsonl".
Proof.
  assert (Str.contains "_" "gsm" = false) as H by (by vm_compute).
  split; [exact H|].
  exact (proj1 (task_file_path_prefix "gsm" "cot_v2" H)).
Defined.

(** X17.  The test for a code model is a test for the substring ["code"]
    anywhere in the model name: for every name of the form
    [a + "code" + b] the answer prefix closes the question as it is, with
    its trailing white space. *)
Theorem code_model_keeps_prefix c a b :
  query_answer_prefix c (a +:+ "code" +:+ b) = answer_prefix c.
Proof. unfold query_answer_prefix. by rewrite contains_mid. Qed.

(** X18.  The two copies of [make_task_file_from_config] return the same
    table or raise the same exception for task configurations that agree on
    the task id, the count, the seed, the chain-of-thought flag, the model
    name and the prompt configuration; the field [timeout] of
    [src/prompts/utils.py] is not read. *)
Theorem task_file_copies_agree rng env fuel tc tc' :
  same_task tc tc' ->
  Prompts.make_task_file_from_config rng env fuel tc'
  = PromptLib.make_task_file_from_config rng env fuel tc.
Proof. apply make_task_file_same. Qed.

Lemma task_file_copies_agree_witness :
  same_task demo_task demo_task'
  /\ Prompts.make_task_file_from_config counter_rng demo_env 0 demo_task'
     = PromptLib.make_task_file_from_config counter_rng demo_env 0 demo_task.
Proof.
  assert (same_task demo_task demo_task') as H by (by repeat split).
  split; [exact H|].
  exact (task_file_copies_agree counter_rng demo_env 0 demo_task demo_task' H).
Defined.

(** ** Building a configuration *)

Lemma unescape_plain s :
  Str.contains Str.escaped_newline s = false -> unescape s = s.
Proof.
  induction s as [|c s IH]; [done|].
  cbn [Str.contains]. intros [Hp Hs]%orb_false_iff.
  destruct s as [|d s]; [apply unescape_single|].
  rewrite prefix_esc_cons2 in Hp. rewrite unescape_other by done.
  by rewrite IH.
Qed.

(** X19.  [from_args] changes nothing in an argument that holds no escaped
    newline: arguments free of the two characters backslash, n are the fields
    of the configuration as they were given. *)
Theorem from_args_keeps_plain args :
  Forall (fun s => Str.contains Str.escaped_newline s = false)
    [ args_question_prefix args; args_answer_prefix args;
      args_final_answer_prefix args; args_intra_example_sep args;
      args_inter_example_sep args ] ->
  from_args args
  = {| question_prefix := args_question_prefix args;
       answer_prefix := args_answer_prefix args;
       final_answer_prefix := args_final_answer_prefix args;
       intra_example_sep := args_intra_example_sep args;
       inter_example_sep := args_inter_example_sep args |}.
Proof.
  intros H. repeat (apply Forall_cons in H as [?%unescape_plain H]).
  unfold from_args. fold (unescape (args_question_prefix args)).
  fold (unescape (args_answer_prefix args)).
  fold (unescape (args_final_answer_prefix args)).
  fold (unescape (args_intra_example_sep args)).
  fold (unescape (args_inter_example_sep args)).
  congruence.
Qed.

Lemma from_args_keeps_plain_witness :
  Forall (fun s => Str.contains Str.escaped_newline s = false)
    [ "Question: "; "Answer: "; "So "; " "; "###" ]
  /\ from_args (mkArgs "Question: " "Answer: " "So " " " "###")
     = mkPromptConfig "Question: " "Answer: " "So " " " "###".
Proof.
  assert (Forall (fun s => Str.contains Str.escaped_newline s = false)
            [ "Question: "; "Answer: "; "So "; " "; "###" ]) as H
    by (repeat constructor).
  split; [exact H|].
  exact (from_args_keeps_plain (mkArgs "Question: " "Answer: " "So " " " "###") H).
Defined.

(** X20.  The conversion of [from_args] is idempotent: converting the
    fields of a converted configuration once more gives the same
    configuration, since no escaped newline is left to convert. *)
Theorem from_args_idempotent args :
  from_args (args_of_config (from_args args)) = from_args args.
Proof.
  assert (forall s, unescape (unescape s) = unescape s) as Hidem.
  { intros s. apply unescape_plain, unescape_no_escape. }
  unfold from_args, args_of_config; cbn [question_prefix answer_prefix
    final_answer_prefix intra_example_sep inter_example_sep
    args_question_prefix args_answer_prefix args_final_answer_prefix
    args_intra_example_sep args_inter_example_sep].
  f_equal; apply Hidem.
Qed.

(** X21.  Round trip of a configuration through its dictionary: the
    dictionary that [TaskConfig.to_dict] stores for a [PromptConfig] is read
    back by [PromptConfig.from_dict] as the same configuration, with no error
    and no field changed. *)
Theorem from_dict_of_dict c :
  PromptLib.from_dict (PromptConfig_dict c) = Ok c.
Proof.
  destruct c as [q a f i e]. unfold PromptLib.from_dict, PromptConfig_dict.
  cbn [question_prefix answer_prefix final_answer_prefix intra_example_sep
       inter_example_sep].
  rewrite decide_True.
  - by simplify_map_eq.
  - rewrite !dom_insert_L, dom_empty_L. unfold PromptLib.field_names.
    set_solver.
Qed.

(** X22.  [PromptConfig.from_dict] raises [TypeError] exactly when the
    dictionary has a key that is no field of [PromptConfig]; otherwise it
    returns a configuration in which every field that is not a key has its
    default value. *)
Theorem from_dict_unknown_key config_dict :
  (PromptLib.from_dict config_dict = Raise TypeError
   <-> exists name, name ∈ dom config_dict /\ name ∉ PromptLib.field_names)
  /\ (forall c name,
        PromptLib.from_dict config_dict = Ok c ->
        config_dict !! name = None ->
        PromptLib.get_field name c
        = PromptLib.get_field name PromptConfig_default).
Proof.
  unfold PromptLib.from_dict. split.
  - case_decide as Hdom.
    + split; [done|]. intros (name & Hin & Hnot). exfalso. apply Hnot.
      apply Hdom in Hin. by apply elem_of_list_to_set in Hin.
    + split; [intros _|done].
      destruct (decide (Exists (fun name => name ∉ PromptLib.field_names)
                          (elements (dom config_dict)))) as [Hex|Hnex].
      * apply Exists_exists in Hex as (name & Hin & Hnot).
        exists name. split; [by apply elem_of_elements in Hin|done].
      * exfalso. apply Hdom. intros name Hin.
        apply not_Exists_Forall in Hnex; [|apply _].
        rewrite Forall_forall in Hnex.
        apply elem_of_elements, Hnex in Hin. simpl in Hin.
        apply elem_of_list_to_set. by apply dec_stable.
  - intros c name Hd Hnone. case_decide; [|done]. injection Hd as <-.
    unfold PromptLib.get_field.
    repeat (case_decide; [subst name; simpl; by rewrite Hnone|]). done.
Qed.

Lemma from_dict_unknown_key_witness :
  PromptLib.from_dict {[ "question_prefx" := "Q: " ]} = Raise TypeError
  /\ exists name,
       name ∈ dom ({[ "question_prefx" := "Q: " ]} : gmap string string)
       /\ name ∉ PromptLib.field_names.
Proof.
  assert (PromptLib.from_dict {[ "question_prefx" := "Q: " ]} = Raise TypeError)
    as H by (by vm_compute).
  split; [exact H|].
  exact (proj1 (proj1 (from_dict_unknown_key {[ "question_prefx" := "Q: " ]})) H).
Defined.
